(** * The MIMIC-CXR dataset adapters of
      [minigpt4/datasets/datasets/mimic_cxr_dataset.py]

    The module holds three classes, [MimicCxrDataset] (training),
    [evalMIMICDataset] (caption-style evaluation) and
    [evalDetectMimicDataset] (detection-style evaluation).  Each one filters
    its annotation records at construction and builds a sample per index.

    The embedding is shallow: a Python method is a function in a state and
    error monad.  The state carries the object ([self]), the random number
    generator consumed by [random.choice] and the lines printed so far.  What
    the methods read from outside the program (the file system, the image
    files, the annotation file) is a [World] passed to them. *)

From Stdlib Require Import ZArith Lia Ascii.
From Equations Require Import Equations.
From stdpp Require Import base strings gmap list pretty.

(** ** Python values *)

(** The scalar values a JSON annotation carries in its fields. *)
Inductive value : Type :=
| VNone
| VBool (b : bool)
| VInt (z : Z)
| VStr (s : string).

#[global] Instance value_eq_dec : EqDecision value.
Proof. solve_decision. Defined.

(** [str(v)], which is also what ['{}'.format(v)] and [f"{v}"] produce. *)
Definition py_str (v : value) : string :=
  match v with
  | VNone => "None"
  | VBool true => "True"
  | VBool false => "False"
  | VInt z => pretty z
  | VStr s => s
  end.

(** An annotation record is a [dict] with string keys. *)
Abbreviation record := (gmap string value).

(** The subclasses of [Exception] that the module raises itself or meets in
    its collaborators.  [Raised] stands for any other [Exception] coming from
    the image library, the processors or the file system. *)
Inductive exn : Type :=
| KeyError (key : string)
| IndexError
| TypeError
| ZeroDivisionError
| UnboundLocalError (name : string)
| RuntimeError (msg : string)
| Raised (cls msg : string).

#[global] Instance exn_eq_dec : EqDecision exn.
Proof. solve_decision. Defined.

(** ** Images (PIL) *)

Inductive mode : Type :=
| L
| RGB
| OtherMode (name : string).

(** What [Image.open] finds in a file: the mode and the dimensions stored in
    its header, and the error, if any, that reading its pixel data raises. *)
Record image_file : Type := {
  file_mode : mode;
  file_size : Z * Z;
  file_data_error : option exn
}.

(** An image is described by the operations that produced it. *)
Inductive Image : Type :=
| Opened (path : string) (f : image_file)
| Convert (im : Image) (m : mode)
| Resize (im : Image) (size : Z * Z)
| New (m : mode) (size : Z * Z)
| Paste (canvas im : Image).

(** [im.size] *)
Fixpoint size (im : Image) : Z * Z :=
  match im with
  | Opened _ f => file_size f
  | Convert im _ => size im
  | Resize _ sz => sz
  | New _ sz => sz
  | Paste canvas _ => size canvas
  end.

(** [im.mode] *)
Fixpoint image_mode (im : Image) : mode :=
  match im with
  | Opened _ f => file_mode f
  | Convert _ m => m
  | Resize im _ => image_mode im
  | New m _ => m
  | Paste canvas _ => image_mode canvas
  end.

(** Whether [resize] was applied somewhere on the way to [im]. *)
Fixpoint resized (im : Image) : bool :=
  match im with
  | Opened _ _ => false
  | Convert im _ => resized im
  | Resize _ _ => true
  | New _ _ => false
  | Paste canvas im => resized canvas || resized im
  end.

(** ** The world outside the program *)

Record World : Type := {
  (** [os.path.join] on two strings *)
  os_path_join : string -> string -> string;
  (** [os.path.exists] *)
  os_path_exists : string -> bool;
  (** [with open(path, 'r') as f: json.load(f)] *)
  json_load : string -> exn + list record;
  (** [Image.open] *)
  Image_open : string -> exn + image_file
}.

(** [posixpath.join] for two components. *)
Definition posix_join (a b : string) : string :=
  if String.prefix "/" b then b
  else if (String.length a =? 0)%nat then b
  else if String.prefix "/" (String.rev a) then a ++ b
  else a ++ "/" ++ b.

(** ** Random numbers *)

(** The generator is a sequence of raw draws and a position in it. *)
Record rng : Type := {
  draws : nat -> nat;
  position : nat
}.

Definition randbelow (n : nat) (g : rng) : nat * rng :=
  (draws g (position g) mod n,
   {| draws := draws g; position := S (position g) |}).

(** ** Standard output *)

(** A printed line is a string, or a string followed by [str(e)] of an
    exception [e], whose text is left to the exception. *)
Inductive line : Type :=
| Text (s : string)
| TextExn (s : string) (e : exn).

(** ** The monad of methods *)

Record state (Self : Type) : Type := State {
  self : Self;
  random : rng;
  stdout : list line
}.
Arguments State {Self} _ _ _.
Arguments self {Self} _.
Arguments random {Self} _.
Arguments stdout {Self} _.

Definition M (Self A : Type) : Type := state Self -> (exn + A) * state Self.

#[global] Instance M_ret {Self} : MRet (M Self) :=
  fun A a st => (inr a, st).

#[global] Instance M_bind {Self} : MBind (M Self) :=
  fun A B k m st =>
    match m st with
    | (inl e, st') => (inl e, st')
    | (inr a, st') => k a st'
    end.

(** [raise e] *)
Definition raise {Self A} (e : exn) : M Self A :=
  fun st => (inl e, st).

(** The result of a call that cannot touch the state. *)
Definition lift {Self A} (r : exn + A) : M Self A :=
  fun st => (r, st).

(** [try: body  except Exception as e: handler] *)
Definition try_except {Self A} (body : M Self A) (handler : exn -> M Self A)
  : M Self A :=
  fun st =>
    match body st with
    | (inl e, st') => handler e st'
    | (inr a, st') => (inr a, st')
    end.

(** [try: x = first; rest  except Exception as e: handler], where the handler
    reads the local [x]: it is bound only if [first] completed. *)
Definition try_binding {Self A B} (first : M Self A) (rest : A -> M Self B)
    (handler : option A -> exn -> M Self B) : M Self B :=
  fun st =>
    match first st with
    | (inl e, st') => handler None e st'
    | (inr x, st') => try_except (rest x) (handler (Some x)) st'
    end.

Definition get_self {Self} : M Self Self :=
  fun st => (inr (self st), st).

Definition set_self {Self} (s : Self) : M Self unit :=
  fun st => (inr tt, State s (random st) (stdout st)).

(** [print(s)] *)
Definition print {Self} (s : string) : M Self unit :=
  fun st => (inr tt, State (self st) (random st) (stdout st ++ [Text s])).

(** [print(f"{s}{e}")] *)
Definition print_exn {Self} (s : string) (e : exn) : M Self unit :=
  fun st => (inr tt, State (self st) (random st) (stdout st ++ [TextExn s e])).

(** [d[k]] on a dict *)
Definition dict_getitem {Self} (d : record) (k : string) : M Self value :=
  match d !! k with
  | Some v => mret v
  | None => raise (KeyError k)
  end.

(** The element [l[i]] designates: a negative index counts from the end,
    an index out of range designates nothing. *)
Definition list_index {A} (l : list A) (i : Z) : option A :=
  let n := Z.of_nat (length l) in
  let j := if (i <? 0)%Z then (i + n)%Z else i in
  if (j <? 0)%Z then None else l !! Z.to_nat j.

(** [l[i]] on a list *)
Definition list_getitem {Self A} (l : list A) (i : Z) : M Self A :=
  match list_index l i with
  | Some x => mret x
  | None => raise IndexError
  end.

(** [a % b] on integers; the result has the sign of [b], as [Z.modulo]. *)
Definition py_mod {Self} (a b : Z) : M Self Z :=
  if (b =? 0)%Z then raise ZeroDivisionError else mret (a mod b)%Z.

(** [os.path.join(root, p)]: a component that is no string is refused. *)
Definition path_join {Self} (w : World) (root : string) (p : value)
  : M Self string :=
  match p with
  | VStr s => mret (os_path_join w root s)
  | _ => raise TypeError
  end.

(** [random.choice(seq)] *)
Definition random_choice {Self A} (seq : list A) : M Self A :=
  fun st =>
    match seq with
    | [] => (inl IndexError, st)
    | x :: _ =>
        let '(k, g) := randbelow (length seq) (random st) in
        (inr (nth k seq x), State (self st) g (stdout st))
    end.

(** [Image.open(path)] *)
Definition PIL_open {Self} (w : World) (path : string) : M Self Image :=
  f ← lift (Image_open w path); mret (Opened path f).

(** [im.convert(m)]: the pixel data of a file are read here. *)
Definition convert {Self} (im : Image) (m : mode) : M Self Image :=
  match im with
  | Opened _ f =>
      match file_data_error f with
      | Some e => raise e
      | None => mret (Convert im m)
      end
  | _ => mret (Convert im m)
  end.

(** Runs the body of a constructor on a fresh object and returns the object. *)
Definition construct {Self} (fresh : Self) (init : M Self unit) : M unit Self :=
  fun st =>
    match init (State fresh (random st) (stdout st)) with
    | (inl e, st') => (inl e, State tt (random st') (stdout st'))
    | (inr _, st') => (inr (self st'), State tt (random st') (stdout st'))
    end.

(** ** Validation, shared by the three classes

    The loop of [_validate_dataset]:
    [for idx, item in enumerate(items)], with the locals [valid] and
    [missing_count].  The three classes run the same loop on different
    attributes: the root directory and the field that names the file. *)
Fixpoint validate_loop {Self} (w : World) (root field : string)
    (items valid : list record) (missing_count : nat)
  : M Self (list record * nat) :=
  match items with
  | [] => mret (valid, missing_count)
  | item :: rest =>
      p ← dict_getitem item field;
      image_path ← path_join w root p;
      if os_path_exists w image_path then
        validate_loop w root field rest (valid ++ [item]) missing_count
      else
        let missing_count := S missing_count in
        (if (missing_count <=? 10)%nat
         then print ("Missing: " ++ image_path) else mret tt);;
        validate_loop w root field rest valid missing_count
  end.

(** What follows the loop: the summary lines. *)
Definition validation_summary {Self} (name : string)
    (total missing_count valid : nat) : M Self unit :=
  (if (10 <? missing_count)%nat
   then print ("... and " ++ pretty (missing_count - 10)%nat
               ++ " more missing files")
   else mret tt);;
  print (String "010"%char (name ++ " validation complete:"));;
  print ("  Total samples: " ++ pretty total);;
  print ("  Missing files: " ++ pretty missing_count);;
  print ("  Valid samples: " ++ pretty valid).

(** The four templates of [instruction_pool]. *)
Definition instruction_templates : list string :=
  [ "Describe this image in detail";
    "Take a look at this image and describe what you notice";
    "Please provide a detailed description of the picture";
    "Could you describe the contents of this image for me?" ].

(** ** class MimicCxrDataset *)

Module MimicCxrDataset.

Record t (Tensor : Type) : Type := {
  vis_root : string;
  vis_processor : Image -> exn + Tensor;
  text_processor : string -> exn + string;
  ann : list record;
  instruction_pool : list string
}.
Arguments vis_root {Tensor} _.
Arguments vis_processor {Tensor} _.
Arguments text_processor {Tensor} _.
Arguments ann {Tensor} _.
Arguments instruction_pool {Tensor} _.

(** The dict returned by [__getitem__]. *)
Record sample (Tensor : Type) : Type := {
  image : Tensor;
  instruction_input : string;
  answer : value;
  image_id : value
}.
Arguments image {Tensor} _.
Arguments instruction_input {Tensor} _.
Arguments answer {Tensor} _.
Arguments image_id {Tensor} _.

Section Methods.
Context {Tensor : Type}.
Variable w : World.

Definition set_ann (s : t Tensor) (l : list record) : t Tensor :=
  {| vis_root := vis_root s; vis_processor := vis_processor s;
     text_processor := text_processor s; ann := l;
     instruction_pool := instruction_pool s |}.

Definition _validate_dataset : M (t Tensor) unit :=
  print "Validating dataset...";;
  s ← get_self;
  '(valid_ann, missing_count) ←
    validate_loop w (vis_root s) "image_path" (ann s) [] 0;
  validation_summary "Dataset" (length (ann s)) missing_count
    (length valid_ann);;
  set_self (set_ann s valid_ann).

Definition __init__ (vis_processor : Image -> exn + Tensor)
    (text_processor : string -> exn + string)
    (vis_root ann_path : string) : M unit (t Tensor) :=
  ann ← lift (json_load w ann_path);
  construct
    {| vis_root := vis_root; vis_processor := vis_processor;
       text_processor := text_processor; ann := ann;
       instruction_pool := instruction_templates |}
    _validate_dataset.

Definition load_image (image_id : value) : M (t Tensor) (option Tensor) :=
  s ← get_self;
  try_binding
    (path_join w (vis_root s) image_id)
    (fun image_path =>
       if negb (os_path_exists w image_path) then
         print ("Warning: Image not found: " ++ image_path);;
         mret None
       else
         grayscale_image ← PIL_open w image_path;
         grayscale_image ← convert grayscale_image L;
         let grayscale_image := Resize grayscale_image (448, 448)%Z in
         let image := New RGB (size grayscale_image) in
         let image := Paste image grayscale_image in
         image ← lift (vis_processor s image);
         mret (Some image))
    (fun image_path e =>
       match image_path with
       | Some image_path =>
           print_exn ("Error loading " ++ image_path ++ ": ") e;;
           mret None
       | None => raise (UnboundLocalError "image_path")
       end).

Definition __len__ : M (t Tensor) nat :=
  s ← get_self; mret (length (ann s)).

Definition max_attempts : nat := 10.

(** [index = (index + 1) % len(self)] *)
Definition next_index (index : Z) : M (t Tensor) Z :=
  n ← __len__; py_mod (index + 1) (Z.of_nat n).

(** One turn of the [while] loop: [inl] is the sample it returns, [inr]
    the index it continues with (after [attempts += 1]). *)
Definition attempt (index : Z) : M (t Tensor) (sample Tensor + Z) :=
  try_except
    (s ← get_self;
     info ← list_getitem (ann s) index;
     p ← dict_getitem info "image_path";
     image ← load_image p;
     match image with
     | None => index ← next_index index; mret (inr index)
     | Some image =>
         instruction ← random_choice (instruction_pool s);
         processed ← lift (text_processor s instruction);
         let instruction := ("<Img><ImageHere></Img> " ++ processed)%string in
         answer ← dict_getitem info "caption";
         image_id ← dict_getitem info "image_id";
         mret (inl {| image := image; instruction_input := instruction;
                      answer := answer; image_id := image_id |})
     end)
    (fun e =>
       print_exn ("Error processing index " ++ pretty index ++ ": ") e;;
       index ← next_index index; mret (inr index)).

(** [while attempts < max_attempts: ...], then the [raise]. *)
Equations? while_attempts (index : Z) (attempts : nat)
  : M (t Tensor) (sample Tensor) by wf (max_attempts - attempts) lt :=
  while_attempts index attempts with lt_dec attempts max_attempts := {
    | left _ =>
        r ← attempt index;
        match r with
        | inl s => mret s
        | inr index => while_attempts index (attempts + 1)
        end
    | right _ =>
        raise (RuntimeError ("Failed to load valid sample after "
                             ++ pretty max_attempts ++ " attempts"))
  }.
Proof. lia. Qed.

Definition __getitem__ (index : Z) : M (t Tensor) (sample Tensor) :=
  while_attempts index 0.

End Methods.

End MimicCxrDataset.

(** ** class evalMIMICDataset *)

Module evalMIMICDataset.

Record t (Tensor : Type) : Type := {
  loaded_data : list record;
  root_path : string;
  vis_processor : Image -> exn + Tensor;
  instruction_pool : list string
}.
Arguments loaded_data {Tensor} _.
Arguments root_path {Tensor} _.
Arguments vis_processor {Tensor} _.
Arguments instruction_pool {Tensor} _.

Section Methods.
Context {Tensor : Type}.
Variable w : World.

Definition set_loaded_data (s : t Tensor) (l : list record) : t Tensor :=
  {| loaded_data := l; root_path := root_path s;
     vis_processor := vis_processor s;
     instruction_pool := instruction_pool s |}.

Definition _validate_dataset : M (t Tensor) unit :=
  print "Validating evalMIMIC dataset...";;
  s ← get_self;
  '(valid_data, missing_count) ←
    validate_loop w (root_path s) "image_path" (loaded_data s) [] 0;
  validation_summary "evalMIMIC" (length (loaded_data s)) missing_count
    (length valid_data);;
  set_self (set_loaded_data s valid_data).

Definition __init__ (loaded_data : list record)
    (vis_processor : Image -> exn + Tensor) (root_path : string)
  : M unit (t Tensor) :=
  construct
    {| loaded_data := loaded_data; root_path := root_path;
       vis_processor := vis_processor;
       instruction_pool := instruction_templates |}
    _validate_dataset.

Definition __len__ : M (t Tensor) nat :=
  s ← get_self; mret (length (loaded_data s)).

Definition __getitem__ (idx : Z) : M (t Tensor) (Tensor * string * string) :=
  s ← get_self;
  info ← list_getitem (loaded_data s) idx;
  image_id ← dict_getitem info "image_id";
  let img_id := (py_str image_id ++ ".jpg")%string in
  p ← dict_getitem info "image_path";
  image_path ← path_join w (root_path s) p;
  grayscale_image ← PIL_open w image_path;
  grayscale_image ← convert grayscale_image L;
  let grayscale_image := Resize grayscale_image (448, 448)%Z in
  let image := New RGB (size grayscale_image) in
  let image := Paste image grayscale_image in
  image ← lift (vis_processor s image);
  answer ← dict_getitem info "caption";
  question ← random_choice (instruction_pool s);
  mret (image, question, img_id).

End Methods.

End evalMIMICDataset.

(** ** class evalDetectMimicDataset *)

Module evalDetectMimicDataset.

Record t (Tensor : Type) : Type := {
  loaded_data : list record;
  root_path : string;
  vis_processor : Image -> exn + Tensor
}.
Arguments loaded_data {Tensor} _.
Arguments root_path {Tensor} _.
Arguments vis_processor {Tensor} _.

Section Methods.
Context {Tensor : Type}.
Variable w : World.

Definition set_loaded_data (s : t Tensor) (l : list record) : t Tensor :=
  {| loaded_data := l; root_path := root_path s;
     vis_processor := vis_processor s |}.

Definition _validate_dataset : M (t Tensor) unit :=
  print "Validating evalDetectMimic dataset...";;
  s ← get_self;
  '(valid_data, missing_count) ←
    validate_loop w (root_path s) "key" (loaded_data s) [] 0;
  validation_summary "evalDetectMimic" (length (loaded_data s)) missing_count
    (length valid_data);;
  set_self (set_loaded_data s valid_data).

Definition __init__ (loaded_data : list record)
    (vis_processor : Image -> exn + Tensor) (root_path : string)
  : M unit (t Tensor) :=
  construct
    {| loaded_data := loaded_data; root_path := root_path;
       vis_processor := vis_processor |}
    _validate_dataset.

Definition __len__ : M (t Tensor) nat :=
  s ← get_self; mret (length (loaded_data s)).

Definition __getitem__ (idx : Z) : M (t Tensor) (Tensor * string * value) :=
  s ← get_self;
  data ← list_getitem (loaded_data s) idx;
  img_id ← dict_getitem data "key";
  sent ← dict_getitem data "objects";
  image_path ← path_join w (root_path s) img_id;
  grayscale_image ← PIL_open w image_path;
  grayscale_image ← convert grayscale_image L;
  let image := New RGB (size grayscale_image) in
  let image := Paste image grayscale_image in
  image ← lift (vis_processor s image);
  let question := ("[detection] " ++ py_str sent)%string in
  mret (image, question, img_id).

End Methods.

End evalDetectMimicDataset.

(** ** Vocabulary of the statements *)

(** The path a record resolves to: [root] joined with the string under
    [field]. *)
Definition resolved_path (w : World) (root field : string) (item : record)
  : option string :=
  match item !! field with
  | Some (VStr s) => Some (os_path_join w root s)
  | _ => None
  end.

(** The record's resolved path exists on disk. *)
Definition image_exists (w : World) (root field : string) (item : record)
  : bool :=
  match resolved_path w root field item with
  | Some p => os_path_exists w p
  | None => false
  end.

(** Every record names its file by a string under [field]. *)
Definition well_formed (field : string) (items : list record) : bool :=
  forallb (fun item => match item !! field with
                       | Some (VStr _) => true
                       | _ => false
                       end) items.

(** The number of records whose file is missing. *)
Definition missing_files (w : World) (root field : string)
    (items : list record) : nat :=
  length (List.filter (fun item => negb (image_exists w root field item)) items).

(** Every line printed before is still there, and [l] is among the new
    ones. *)
Definition printed (before after : list line) (l : line) : Prop :=
  exists out, after = before ++ out /\ In l out.

(** A computation that leaves the object as it found it, whatever it
    returns or raises. *)
Definition keeps_self {Self A : Type} (m : M Self A) : Prop :=
  forall st, self (snd (m st)) = self st.

(** Loading the image of [info] fails for the dataset [s]: reading the
    record's [image_path] and calling [load_image] on it never yields an
    image, that is, [load_image] returns [None] or an exception is thrown. *)
Definition loading_fails {Tensor : Type} (w : World)
    (s : MimicCxrDataset.t Tensor) (info : record) : Prop :=
  forall (st : state (MimicCxrDataset.t Tensor)) (x : Tensor),
    self st = s ->
    fst ((p ← dict_getitem info "image_path";
          MimicCxrDataset.load_image w p) st) <> inr (Some x).

(** [failed_attempts w n index st index' st']: starting at [index] in state
    [st], [n] turns of the loop of [__getitem__] fail one after the other,
    each one moving to the next index modulo the size of the dataset; they
    end at [index'] in state [st']. *)
Inductive failed_attempts {Tensor : Type} (w : World)
  : nat -> Z -> state (MimicCxrDataset.t Tensor)
    -> Z -> state (MimicCxrDataset.t Tensor) -> Prop :=
| failed_none (index : Z) (st : state (MimicCxrDataset.t Tensor)) :
    failed_attempts w 0 index st index st
| failed_next (n : nat) (index index' index'' : Z)
    (st st' st'' : state (MimicCxrDataset.t Tensor)) :
    MimicCxrDataset.attempt w index st = (inr (inr index'), st') ->
    index' = ((index + 1)
              mod Z.of_nat (length (MimicCxrDataset.ann (self st))))%Z ->
    failed_attempts w n index' st' index'' st'' ->
    failed_attempts w (S n) index st index'' st''.

(** [image_error w vp prepare path e]: preparing the image at [path]
    raises [e], while the file is opened, while its pixels are decoded, or
    in the processor [vp], which receives the grayscale image as [prepare]
    set it on its canvas. *)
Inductive image_error {Tensor : Type} (w : World)
    (vp : Image -> exn + Tensor) (prepare : Image -> Image)
    (path : string) (e : exn) : Prop :=
| error_opening :
    Image_open w path = inl e ->
    image_error w vp prepare path e
| error_decoding (f : image_file) :
    Image_open w path = inr f ->
    file_data_error f = Some e ->
    image_error w vp prepare path e
| error_preprocessing (f : image_file) :
    Image_open w path = inr f ->
    file_data_error f = None ->
    vp (prepare (Convert (Opened path f) L)) = inl e ->
    image_error w vp prepare path e.

(** ** Vocabulary of the further properties *)

(** The resolved paths of the records whose file is missing, in input
    order. *)
Fixpoint missing_paths (w : World) (root field : string)
    (items : list record) : list string :=
  match items with
  | [] => []
  | item :: rest =>
      match resolved_path w root field item with
      | Some p =>
          if os_path_exists w p then missing_paths w root field rest
          else p :: missing_paths w root field rest
      | None => missing_paths w root field rest
      end
  end.

(** What the validation of [items] prints under the heading [title]: the
    first ten missing paths, the number of the others if there are any, and
    the three counts. *)
Definition validation_output (w : World) (title name root field : string)
    (items : list record) : list line :=
  let missing := missing_paths w root field items in
  [Text title]
  ++ map (fun p => Text ("Missing: " ++ p)) (take 10 missing)
  ++ (if (10 <? length missing)%nat
      then [Text ("... and " ++ pretty (length missing - 10)%nat
                  ++ " more missing files")]
      else [])
  ++ [Text (String "010"%char (name ++ " validation complete:"));
      Text ("  Total samples: " ++ pretty (length items));
      Text ("  Missing files: " ++ pretty (length missing));
      Text ("  Valid samples: "
            ++ pretty (length (List.filter (image_exists w root field)
                                 items)))].

(** The generator after one draw. *)
Definition drawn (g : rng) : rng :=
  {| draws := draws g; position := S (position g) |}.

(** The template [random.choice] picks from the pool with generator [g]. *)
Definition chosen_template (g : rng) : string :=
  nth (draws g (position g) mod 4) instruction_templates
    "Describe this image in detail".

(** [prepared w vp prepare path x]: the file at [path] opens and decodes,
    and the processor [vp] turns the grayscale image, set on its canvas by
    [prepare], into [x]. *)
Definition prepared {Tensor : Type} (w : World) (vp : Image -> exn + Tensor)
    (prepare : Image -> Image) (path : string) (x : Tensor) : Prop :=
  exists f,
    Image_open w path = inr f
    /\ file_data_error f = None
    /\ vp (prepare (Convert (Opened path f) L)) = inr x.

(** The canvas of the training and caption variants, and the canvas of the
    detection variant. *)
Definition resized_canvas (g : Image) : Image :=
  Paste (New RGB (448, 448)%Z) (Resize g (448, 448)%Z).

Definition plain_canvas (g : Image) : Image :=
  Paste (New RGB (size g)) g.

(** The exception that reading the path of [item] under [field] raises, if
    any: the field is absent, or its value is no string and [os.path.join]
    refuses it. *)
Definition field_error (field : string) (item : record) : option exn :=
  match item !! field with
  | None => Some (KeyError field)
  | Some (VStr _) => None
  | Some _ => Some TypeError
  end.

(** ** A small world to run the methods in *)

Module Demo.

(** The files under [/data]: [b.jpg] is absent, [d.jpg] is damaged. *)
Definition files : list string :=
  ["/data/a.jpg"; "/data/c.jpg"; "/data/d.jpg"].

Definition sound_file : image_file :=
  {| file_mode := OtherMode "I;16"; file_size := (1024, 768)%Z;
     file_data_error := None |}.

Definition damaged_file : image_file :=
  {| file_mode := L; file_size := (512, 512)%Z;
     file_data_error := Some (Raised "OSError" "image file is truncated") |}.

Definition annotation (image_path caption : string) (image_id : Z) : record :=
  {[ "image_path" := VStr image_path; "caption" := VStr caption;
     "image_id" := VInt image_id ]}.

Definition annotations : list record :=
  [ annotation "a.jpg" "clear lungs" 1;
    annotation "b.jpg" "small effusion" 2;
    annotation "c.jpg" "cardiomegaly" 3 ].

Definition detection (key objects : string) : record :=
  {[ "key" := VStr key; "objects" := VStr objects ]}.

Definition detections : list record :=
  [ detection "a.jpg" "cat, dog";
    detection "b.jpg" "effusion";
    detection "c.jpg" "pacemaker";
    detection "d.jpg" "nodule" ].

Definition world : World :=
  {| os_path_join := posix_join;
     os_path_exists := fun p => existsb (String.eqb p) files;
     json_load := fun p =>
       if String.eqb p "/data/ann.json" then inr annotations
       else inl (Raised "FileNotFoundError" p);
     Image_open := fun p =>
       if String.eqb p "/data/d.jpg" then inr damaged_file
       else if existsb (String.eqb p) files then inr sound_file
       else inl (Raised "FileNotFoundError" p) |}.

(** The same directory after every file has been removed. *)
Definition emptied : World :=
  {| os_path_join := posix_join;
     os_path_exists := fun _ => false;
     json_load := json_load world;
     Image_open := fun p => inl (Raised "FileNotFoundError" p) |}.

(** Processors: the image goes through unchanged, the text gets a final
    full stop. *)
Definition vis_processor (im : Image) : exn + Image := inr im.

Definition text_processor (s : string) : exn + string := inr (s ++ ".")%string.

Definition generator : rng := {| draws := fun k => (k + 2)%nat; position := 0 |}.

Definition start {Self} (s : Self) : state Self :=
  {| self := s; random := generator; stdout := [] |}.

(** The training dataset as validation leaves it in [world]. *)
Definition training : MimicCxrDataset.t Image :=
  {| MimicCxrDataset.vis_root := "/data";
     MimicCxrDataset.vis_processor := vis_processor;
     MimicCxrDataset.text_processor := text_processor;
     MimicCxrDataset.ann :=
       [annotation "a.jpg" "clear lungs" 1;
        annotation "c.jpg" "cardiomegaly" 3];
     MimicCxrDataset.instruction_pool := instruction_templates |}.

(** The evaluation datasets as validation leaves them in [world]. *)
Definition captioned : evalMIMICDataset.t Image :=
  {| evalMIMICDataset.loaded_data :=
       [annotation "a.jpg" "clear lungs" 1;
        annotation "c.jpg" "cardiomegaly" 3];
     evalMIMICDataset.root_path := "/data";
     evalMIMICDataset.vis_processor := vis_processor;
     evalMIMICDataset.instruction_pool := instruction_templates |}.

Definition detected : evalDetectMimicDataset.t Image :=
  {| evalDetectMimicDataset.loaded_data :=
       [detection "a.jpg" "cat, dog";
        detection "c.jpg" "pacemaker";
        detection "d.jpg" "nodule"];
     evalDetectMimicDataset.root_path := "/data";
     evalDetectMimicDataset.vis_processor := vis_processor |}.

(** A record without caption, and the caption dataset that holds it. *)
Definition uncaptioned : record :=
  {[ "image_path" := VStr "a.jpg"; "image_id" := VInt 1 ]}.

Definition captioned_in_part : evalMIMICDataset.t Image :=
  evalMIMICDataset.set_loaded_data captioned
    [uncaptioned; annotation "c.jpg" "cardiomegaly" 3].

(** A processor that refuses every image, and the detection dataset that
    uses it. *)
Definition strict_processor (im : Image) : exn + Image :=
  inl (Raised "ValueError" "unsupported image").

Definition detected_strictly : evalDetectMimicDataset.t Image :=
  {| evalDetectMimicDataset.loaded_data :=
       evalDetectMimicDataset.loaded_data detected;
     evalDetectMimicDataset.root_path := "/data";
     evalDetectMimicDataset.vis_processor := strict_processor |}.

(** Thirteen records, of which only the first has its file. *)
Definition mostly_missing : list record :=
  annotation "a.jpg" "clear lungs" 1
  :: map (fun k => annotation ("m" ++ pretty k ++ ".jpg") "lost" (Z.of_nat k))
       (seq 1 12).

(** Records that cannot be validated: no path, and a number for a path. *)
Definition pathless : record :=
  {[ "caption" := VStr "clear lungs"; "image_id" := VInt 4 ]}.

Definition numbered : record :=
  {[ "key" := VInt 7; "objects" := VStr "nodule" ]}.

(** The world whose annotation file holds [anns]. *)
Definition serving (anns : list record) : World :=
  {| os_path_join := posix_join;
     os_path_exists := os_path_exists world;
     json_load := fun p =>
       if String.eqb p "/data/ann.json" then inr anns
       else inl (Raised "FileNotFoundError" p);
     Image_open := Image_open world |}.

(** The directory after [a.jpg] alone has been removed. *)
Definition later : World :=
  {| os_path_join := posix_join;
     os_path_exists := fun p => String.eqb p "/data/c.jpg";
     json_load := json_load world;
     Image_open := fun p =>
       if String.eqb p "/data/c.jpg" then inr sound_file
       else inl (Raised "FileNotFoundError" p) |}.

(** A record whose path is its identifier with [.jpg], and the caption
    dataset that holds it. *)
Definition coincident : record :=
  {[ "image_path" := VStr "a.jpg"; "caption" := VStr "clear lungs";
     "image_id" := VStr "a" ]}.

Definition coinciding : evalMIMICDataset.t Image :=
  evalMIMICDataset.set_loaded_data captioned [coincident].

End Demo.

(** * Theorems *)

Ltac unfold_monad :=
  unfold mbind, M_bind, mret, M_ret, raise, lift, get_self, set_self,
    print, print_exn, try_except, try_binding in *.

(** ** Validation *)

Section Validation.
Context {Self : Type}.
Variable w : World.
Variables root field : string.

Lemma filter_exists_length (items : list record) :
  (length (List.filter (image_exists w root field) items)
   + missing_files w root field items = length items)%nat.
Proof.
  unfold missing_files.
  induction items as [|item rest IH]; simpl; [reflexivity|].
  destruct (image_exists w root field item); simpl; lia.
Qed.

(** The loop keeps, in order, the records whose file exists, counts the
    others, and touches nothing but the output. *)
Lemma validate_loop_spec (items : list record) :
  well_formed field items = true ->
  forall (valid : list record) (missing_count : nat) (st : state Self),
  exists out,
    validate_loop w root field items valid missing_count st
    = (inr (valid ++ List.filter (image_exists w root field) items,
            (missing_count + missing_files w root field items)%nat),
       State (self st) (random st) (stdout st ++ out)).
Proof.
  induction items as [|item rest IH]; intros Hwf valid mc st.
  - exists []. simpl. unfold mret, M_ret, missing_files. simpl.
    rewrite !app_nil_r, Nat.add_0_r. by destruct st.
  - simpl in Hwf. apply andb_true_iff in Hwf as [Hitem Hrest].
    destruct (item !! field) as [[| | |s]|] eqn:Hlook; try discriminate.
    simpl. unfold mbind, M_bind, dict_getitem. rewrite Hlook. simpl.
    unfold missing_files, image_exists, resolved_path. simpl.
    rewrite Hlook. simpl.
    destruct (os_path_exists w (os_path_join w root s)) eqn:Hex; simpl.
    + destruct (IH Hrest (valid ++ [item]) mc st) as [out Hout].
      exists out. rewrite Hout. by rewrite <- app_assoc.
    + assert (Hpr : exists o,
                 (if (mc <=? 9)%nat
                  then print ("Missing: " ++ os_path_join w root s)
                  else mret tt) st
                 = (inr tt, State (self st) (random st) (stdout st ++ o))).
      { destruct (mc <=? 9)%nat.
        - eexists. reflexivity.
        - exists []. unfold mret, M_ret. rewrite app_nil_r. by destruct st. }
      destruct Hpr as [o Ho]. rewrite Ho.
      destruct (IH Hrest valid (S mc)
                  (State (self st) (random st) (stdout st ++ o)))
        as [out Hout].
      exists (o ++ out). rewrite Hout. simpl.
      unfold missing_files, image_exists, resolved_path.
      rewrite <- app_assoc. do 3 f_equal. lia.
Qed.

End Validation.

(** The summary only prints; the count of missing files is among its lines. *)
Lemma validation_summary_spec {Self} (name : string)
    (total missing_count valid : nat) (st : state Self) :
  exists out,
    validation_summary name total missing_count valid st
    = (inr tt, State (self st) (random st) (stdout st ++ out))
    /\ In (Text ("  Missing files: " ++ pretty missing_count)) out.
Proof.
  unfold validation_summary. unfold_monad.
  destruct (10 <? missing_count)%nat; simpl;
    rewrite <- ?app_assoc; simpl; eexists; (split; [reflexivity|]);
    simpl; tauto.
Qed.

(** ** What the methods leave untouched *)

Section KeepsSelf.
Context {Self : Type}.

Lemma keeps_self_ret {A} (a : A) : keeps_self (mret a : M Self A).
Proof. intros st. reflexivity. Qed.

Lemma keeps_self_raise {A} (e : exn) : keeps_self (raise e : M Self A).
Proof. intros st. reflexivity. Qed.

Lemma keeps_self_lift {A} (r : exn + A) : keeps_self (lift r : M Self A).
Proof. intros st. reflexivity. Qed.

Lemma keeps_self_get_self : keeps_self (get_self : M Self Self).
Proof. intros st. reflexivity. Qed.

Lemma keeps_self_print (s : string) : keeps_self (print s : M Self unit).
Proof. intros st. reflexivity. Qed.

Lemma keeps_self_print_exn (s : string) (e : exn) :
  keeps_self (print_exn s e : M Self unit).
Proof. intros st. reflexivity. Qed.

Lemma keeps_self_bind {A B} (m : M Self A) (k : A -> M Self B) :
  keeps_self m -> (forall a, keeps_self (k a)) -> keeps_self (m ≫= k).
Proof.
  intros Hm Hk st. unfold mbind, M_bind. specialize (Hm st).
  destruct (m st) as [[e|a] st1]; simpl in *; [assumption|].
  rewrite Hk. assumption.
Qed.

Lemma keeps_self_try_except {A} (body : M Self A) (handler : exn -> M Self A) :
  keeps_self body -> (forall e, keeps_self (handler e)) ->
  keeps_self (try_except body handler).
Proof.
  intros Hb Hh st. unfold try_except. specialize (Hb st).
  destruct (body st) as [[e|a] st1]; simpl in *; [|assumption].
  rewrite Hh. assumption.
Qed.

Lemma keeps_self_try_binding {A B} (first : M Self A) (rest : A -> M Self B)
    (handler : option A -> exn -> M Self B) :
  keeps_self first -> (forall a, keeps_self (rest a)) ->
  (forall x e, keeps_self (handler x e)) ->
  keeps_self (try_binding first rest handler).
Proof.
  intros Hf Hr Hh st. unfold try_binding. specialize (Hf st).
  destruct (first st) as [[e|a] st1]; simpl in *.
  - rewrite Hh. assumption.
  - rewrite (keeps_self_try_except _ _ (Hr a) (Hh (Some a))). assumption.
Qed.

Lemma keeps_self_dict_getitem (d : record) (k : string) :
  keeps_self (dict_getitem d k : M Self value).
Proof. intros st. unfold dict_getitem. by destruct (d !! k). Qed.

Lemma keeps_self_list_getitem {A} (l : list A) (i : Z) :
  keeps_self (list_getitem l i : M Self A).
Proof. intros st. unfold list_getitem. by destruct (list_index l i). Qed.

Lemma keeps_self_py_mod (a b : Z) : keeps_self (py_mod a b : M Self Z).
Proof. intros st. unfold py_mod. by destruct (b =? 0)%Z. Qed.

Lemma keeps_self_path_join (w : World) (root : string) (p : value) :
  keeps_self (path_join w root p : M Self string).
Proof. intros st. by destruct p. Qed.

Lemma keeps_self_random_choice {A} (seq : list A) :
  keeps_self (random_choice seq : M Self A).
Proof. intros st. by destruct seq. Qed.

Lemma keeps_self_PIL_open (w : World) (path : string) :
  keeps_self (PIL_open w path : M Self Image).
Proof.
  intros st. unfold PIL_open. unfold_monad. by destruct (Image_open w path).
Qed.

Lemma keeps_self_convert (im : Image) (m : mode) :
  keeps_self (convert im m : M Self Image).
Proof.
  intros st. destruct im; try reflexivity.
  simpl. by destruct (file_data_error f).
Qed.

End KeepsSelf.

Create HintDb keeps_self.
#[global] Hint Resolve keeps_self_ret keeps_self_raise keeps_self_lift
  keeps_self_get_self keeps_self_print keeps_self_print_exn
  keeps_self_dict_getitem keeps_self_list_getitem keeps_self_py_mod
  keeps_self_path_join keeps_self_random_choice keeps_self_PIL_open
  keeps_self_convert : keeps_self.

(** Goes through a method statement by statement. *)
Ltac keeps_self_steps :=
  repeat first
    [ progress intros
    | apply keeps_self_bind
    | apply keeps_self_try_except
    | apply keeps_self_try_binding
    | solve [auto with keeps_self]
    | match goal with
      | |- keeps_self (match ?x with _ => _ end) => destruct x
      | |- keeps_self (if ?b then _ else _) => destruct b
      end ].

Section Construction.
Context {Tensor : Type}.
Variable w : World.

Lemma MimicCxr_init_spec (vp : Image -> exn + Tensor)
    (tp : string -> exn + string) (vis_root ann_path : string)
    (items : list record) (st : state unit) :
  json_load w ann_path = inr items ->
  well_formed "image_path" items = true ->
  exists ds st',
    MimicCxrDataset.__init__ w vp tp vis_root ann_path st = (inr ds, st')
    /\ MimicCxrDataset.ann ds
       = List.filter (image_exists w vis_root "image_path") items
    /\ MimicCxrDataset.instruction_pool ds = instruction_templates
    /\ printed (stdout st) (stdout st')
         (Text ("  Missing files: "
                ++ pretty (missing_files w vis_root "image_path" items))).
Proof.
  intros Hload Hwf.
  unfold MimicCxrDataset.__init__, construct,
    MimicCxrDataset._validate_dataset.
  unfold_monad. rewrite Hload. simpl.
  edestruct (validate_loop_spec (Self := MimicCxrDataset.t Tensor)
               w vis_root "image_path" items Hwf [] 0%nat) as [out1 H1].
  rewrite H1. simpl.
  edestruct (validation_summary_spec (Self := MimicCxrDataset.t Tensor)
               "Dataset") as (out2 & H2 & Hin).
  rewrite H2. simpl.
  do 2 eexists. split; [reflexivity|]. simpl.
  repeat split.
  exists ([Text "Validating dataset..."] ++ out1 ++ out2).
  rewrite <- !app_assoc. split; [reflexivity|].
  rewrite !in_app_iff. auto.
Qed.

Lemma evalMIMIC_init_spec (items : list record)
    (vp : Image -> exn + Tensor) (root_path : string) (st : state unit) :
  well_formed "image_path" items = true ->
  exists ds st',
    evalMIMICDataset.__init__ w items vp root_path st = (inr ds, st')
    /\ evalMIMICDataset.loaded_data ds
       = List.filter (image_exists w root_path "image_path") items
    /\ evalMIMICDataset.instruction_pool ds = instruction_templates
    /\ printed (stdout st) (stdout st')
         (Text ("  Missing files: "
                ++ pretty (missing_files w root_path "image_path" items))).
Proof.
  intros Hwf.
  unfold evalMIMICDataset.__init__, construct,
    evalMIMICDataset._validate_dataset.
  unfold_monad. simpl.
  edestruct (validate_loop_spec (Self := evalMIMICDataset.t Tensor)
               w root_path "image_path" items Hwf [] 0%nat) as [out1 H1].
  rewrite H1. simpl.
  edestruct (validation_summary_spec (Self := evalMIMICDataset.t Tensor)
               "evalMIMIC") as (out2 & H2 & Hin).
  rewrite H2. simpl.
  do 2 eexists. split; [reflexivity|]. simpl.
  repeat split.
  exists ([Text "Validating evalMIMIC dataset..."] ++ out1 ++ out2).
  rewrite <- !app_assoc. split; [reflexivity|].
  rewrite !in_app_iff. auto.
Qed.

Lemma evalDetect_init_spec (items : list record)
    (vp : Image -> exn + Tensor) (root_path : string) (st : state unit) :
  well_formed "key" items = true ->
  exists ds st',
    evalDetectMimicDataset.__init__ w items vp root_path st = (inr ds, st')
    /\ evalDetectMimicDataset.loaded_data ds
       = List.filter (image_exists w root_path "key") items
    /\ printed (stdout st) (stdout st')
         (Text ("  Missing files: "
                ++ pretty (missing_files w root_path "key" items))).
Proof.
  intros Hwf.
  unfold evalDetectMimicDataset.__init__, construct,
    evalDetectMimicDataset._validate_dataset.
  unfold_monad. simpl.
  edestruct (validate_loop_spec (Self := evalDetectMimicDataset.t Tensor)
               w root_path "key" items Hwf [] 0%nat) as [out1 H1].
  rewrite H1. simpl.
  edestruct (validation_summary_spec (Self := evalDetectMimicDataset.t Tensor)
               "evalDetectMimic") as (out2 & H2 & Hin).
  rewrite H2. simpl.
  do 2 eexists. split; [reflexivity|]. simpl.
  repeat split.
  exists ([Text "Validating evalDetectMimic dataset..."] ++ out1 ++ out2).
  rewrite <- !app_assoc. split; [reflexivity|].
  rewrite !in_app_iff. auto.
Qed.

End Construction.

(** ** Construction (C1) *)

(** C1.  Constructing any of the three datasets from a list of annotation
    records (each naming its file by a string) succeeds and leaves as the
    validated list exactly the input records whose resolved path
    ([vis_root] joined with [image_path], or [root_path] joined with [key]
    for the detection variant) exists on disk, in input order.  The size
    [__len__] reports afterwards is the number of input records minus the
    number of missing files, which is the count the constructor prints. *)
Theorem construction_keeps_existing_records {Tensor : Type} (w : World)
    (items : list record) (st : state unit) :
  (forall (vp : Image -> exn + Tensor) (tp : string -> exn + string)
          (vis_root ann_path : string),
      json_load w ann_path = inr items ->
      well_formed "image_path" items = true ->
      exists ds st',
        MimicCxrDataset.__init__ w vp tp vis_root ann_path st = (inr ds, st')
        /\ MimicCxrDataset.ann ds
           = List.filter (image_exists w vis_root "image_path") items
        /\ (forall g out,
              MimicCxrDataset.__len__ (State ds g out)
              = (inr (length items
                      - missing_files w vis_root "image_path" items)%nat,
                 State ds g out))
        /\ printed (stdout st) (stdout st')
             (Text ("  Missing files: "
                    ++ pretty (missing_files w vis_root "image_path" items))))
  /\ (forall (vp : Image -> exn + Tensor) (root_path : string),
      well_formed "image_path" items = true ->
      exists ds st',
        evalMIMICDataset.__init__ w items vp root_path st = (inr ds, st')
        /\ evalMIMICDataset.loaded_data ds
           = List.filter (image_exists w root_path "image_path") items
        /\ (forall g out,
              evalMIMICDataset.__len__ (State ds g out)
              = (inr (length items
                      - missing_files w root_path "image_path" items)%nat,
                 State ds g out))
        /\ printed (stdout st) (stdout st')
             (Text ("  Missing files: "
                    ++ pretty (missing_files w root_path "image_path" items))))
  /\ (forall (vp : Image -> exn + Tensor) (root_path : string),
      well_formed "key" items = true ->
      exists ds st',
        evalDetectMimicDataset.__init__ w items vp root_path st = (inr ds, st')
        /\ evalDetectMimicDataset.loaded_data ds
           = List.filter (image_exists w root_path "key") items
        /\ (forall g out,
              evalDetectMimicDataset.__len__ (State ds g out)
              = (inr (length items
                      - missing_files w root_path "key" items)%nat,
                 State ds g out))
        /\ printed (stdout st) (stdout st')
             (Text ("  Missing files: "
                    ++ pretty (missing_files w root_path "key" items)))).
Proof.
  split; [|split].
  - intros vp tp vis_root ann_path Hload Hwf.
    destruct (MimicCxr_init_spec w vp tp vis_root ann_path items st Hload Hwf)
      as (ds & st' & Hinit & Hann & _ & Hout).
    exists ds, st'. repeat split; try assumption.
    intros g out. unfold MimicCxrDataset.__len__. unfold_monad. simpl.
    rewrite Hann.
    pose proof (filter_exists_length w vis_root "image_path" items).
    do 2 f_equal. lia.
  - intros vp root_path Hwf.
    destruct (evalMIMIC_init_spec w items vp root_path st Hwf)
      as (ds & st' & Hinit & Hdata & _ & Hout).
    exists ds, st'. repeat split; try assumption.
    intros g out. unfold evalMIMICDataset.__len__. unfold_monad. simpl.
    rewrite Hdata.
    pose proof (filter_exists_length w root_path "image_path" items).
    do 2 f_equal. lia.
  - intros vp root_path Hwf.
    destruct (evalDetect_init_spec w items vp root_path st Hwf)
      as (ds & st' & Hinit & Hdata & Hout).
    exists ds, st'. repeat split; try assumption.
    intros g out. unfold evalDetectMimicDataset.__len__. unfold_monad. simpl.
    rewrite Hdata.
    pose proof (filter_exists_length w root_path "key" items).
    do 2 f_equal. lia.
Qed.

Lemma construction_keeps_existing_records_witness :
  (exists ds st',
      MimicCxrDataset.__init__ Demo.world Demo.vis_processor
        Demo.text_processor "/data" "/data/ann.json" (Demo.start tt)
      = (inr ds, st')
      /\ MimicCxrDataset.ann ds
         = [Demo.annotation "a.jpg" "clear lungs" 1;
            Demo.annotation "c.jpg" "cardiomegaly" 3]
      /\ MimicCxrDataset.__len__ (Demo.start ds) = (inr 2%nat, Demo.start ds))
  /\ (exists ds st',
      evalMIMICDataset.__init__ Demo.world Demo.annotations
        Demo.vis_processor "/data" (Demo.start tt)
      = (inr ds, st')
      /\ evalMIMICDataset.loaded_data ds
         = [Demo.annotation "a.jpg" "clear lungs" 1;
            Demo.annotation "c.jpg" "cardiomegaly" 3]
      /\ evalMIMICDataset.__len__ (Demo.start ds) = (inr 2%nat, Demo.start ds))
  /\ (exists ds st',
      evalDetectMimicDataset.__init__ Demo.world Demo.detections
        Demo.vis_processor "/data" (Demo.start tt)
      = (inr ds, st')
      /\ evalDetectMimicDataset.loaded_data ds
         = [Demo.detection "a.jpg" "cat, dog";
            Demo.detection "c.jpg" "pacemaker";
            Demo.detection "d.jpg" "nodule"]
      /\ evalDetectMimicDataset.__len__ (Demo.start ds)
         = (inr 3%nat, Demo.start ds)).
Proof.
  destruct (construction_keeps_existing_records (Tensor := Image)
              Demo.world Demo.annotations (Demo.start tt)) as (H1 & H2 & _).
  destruct (construction_keeps_existing_records (Tensor := Image)
              Demo.world Demo.detections (Demo.start tt)) as (_ & _ & H3).
  split; [|split].
  - destruct (H1 Demo.vis_processor Demo.text_processor "/data"
                "/data/ann.json" eq_refl eq_refl)
      as (ds & st' & Hinit & Hann & Hlen & _).
    exists ds, st'. split; [exact Hinit|]. split.
    + rewrite Hann. reflexivity.
    + apply Hlen.
  - destruct (H2 Demo.vis_processor "/data" eq_refl)
      as (ds & st' & Hinit & Hdata & Hlen & _).
    exists ds, st'. split; [exact Hinit|]. split.
    + rewrite Hdata. reflexivity.
    + apply Hlen.
  - destruct (H3 Demo.vis_processor "/data" eq_refl)
      as (ds & st' & Hinit & Hdata & Hlen & _).
    exists ds, st'. split; [exact Hinit|]. split.
    + rewrite Hdata. reflexivity.
    + apply Hlen.
Defined.

(** The datasets of [Demo] are the ones the constructors build. *)
Lemma demo_datasets_constructed :
  fst (MimicCxrDataset.__init__ Demo.world Demo.vis_processor
         Demo.text_processor "/data" "/data/ann.json" (Demo.start tt))
  = inr Demo.training
  /\ fst (evalMIMICDataset.__init__ Demo.world Demo.annotations
            Demo.vis_processor "/data" (Demo.start tt))
     = inr Demo.captioned
  /\ fst (evalDetectMimicDataset.__init__ Demo.world Demo.detections
            Demo.vis_processor "/data" (Demo.start tt))
     = inr Demo.detected.
Proof. repeat split; vm_compute; reflexivity. Qed.

(** ** The training variant *)

Section Training.
Context {Tensor : Type}.
Variable w : World.

Local Abbreviation dataset := (MimicCxrDataset.t Tensor).

Lemma state_eta {Self} (st : state Self) :
  State (self st) (random st) (stdout st) = st.
Proof. by destruct st. Qed.

(** [load_image] returns an image and leaves the state alone, or prints one
    line and returns [None], or raises for the unbound [image_path]. *)
Lemma load_image_cases (v : value) (st : state dataset) :
  (exists x, MimicCxrDataset.load_image w v st = (inr (Some x), st))
  \/ (exists l, MimicCxrDataset.load_image w v st
               = (inr None,
                  State (self st) (random st) (stdout st ++ [l])))
  \/ MimicCxrDataset.load_image w v st
     = (inl (UnboundLocalError "image_path"), st).
Proof.
  unfold MimicCxrDataset.load_image, path_join, PIL_open, convert.
  unfold_monad.
  destruct v as [| | |p]; simpl; auto.
  destruct (os_path_exists w _); simpl; [|eauto].
  destruct (Image_open w _) as [e|f]; simpl; [eauto|].
  destruct (file_data_error f) as [e|]; simpl; [eauto|].
  destruct (MimicCxrDataset.vis_processor _ _) as [e|x]; simpl; eauto.
Qed.

(** The image [load_image] returns: the file, converted to grayscale,
    resized to 448 by 448, pasted on an RGB canvas of that size and
    processed. *)
Lemma load_image_returns (v : value) (st st' : state dataset) (x : Tensor) :
  MimicCxrDataset.load_image w v st = (inr (Some x), st') ->
  exists p f,
    v = VStr p
    /\ Image_open w (os_path_join w (MimicCxrDataset.vis_root (self st)) p)
       = inr f
    /\ file_data_error f = None
    /\ MimicCxrDataset.vis_processor (self st)
         (Paste (New RGB (448, 448)%Z)
            (Resize
               (Convert
                  (Opened
                     (os_path_join w (MimicCxrDataset.vis_root (self st)) p)
                     f) L)
               (448, 448)%Z))
       = inr x.
Proof.
  unfold MimicCxrDataset.load_image, path_join, PIL_open, convert.
  unfold_monad.
  destruct v as [| | |p]; simpl; try discriminate.
  destruct (os_path_exists w _); simpl; [|discriminate].
  destruct (Image_open w _) as [e|f] eqn:Hopen; simpl; [discriminate|].
  destruct (file_data_error f) as [e|] eqn:Hdecode; simpl; [discriminate|].
  destruct (MimicCxrDataset.vis_processor _ _) as [e|y] eqn:Hvis; simpl;
    [discriminate|].
  intros H. injection H as <- <-. exists p, f. auto.
Qed.

Lemma while_attempts_unfold (index : Z) (attempts : nat) :
  MimicCxrDataset.while_attempts w index attempts
  = if lt_dec attempts MimicCxrDataset.max_attempts then
      r ← MimicCxrDataset.attempt w index;
      match r with
      | inl s => mret s
      | inr index' =>
          MimicCxrDataset.while_attempts (Tensor := Tensor) w index'
            (attempts + 1)
      end
    else raise (RuntimeError "Failed to load valid sample after 10 attempts").
Proof.
  rewrite MimicCxrDataset.while_attempts_equation_1.
  unfold MimicCxrDataset.while_attempts_unfold_clause_1.
  destruct (lt_dec attempts MimicCxrDataset.max_attempts); reflexivity.
Qed.

(** [index = (index + 1) % len(self)] on a dataset that is not empty. *)
Lemma next_index_nonempty (index : Z) (st : state dataset) :
  MimicCxrDataset.ann (self st) <> [] ->
  MimicCxrDataset.next_index index st
  = (inr ((index + 1)
          mod Z.of_nat (length (MimicCxrDataset.ann (self st))))%Z, st).
Proof.
  intros Hne. unfold MimicCxrDataset.next_index, MimicCxrDataset.__len__,
    py_mod. unfold_monad. simpl.
  destruct (Z.eqb_spec
              (Z.of_nat (length (MimicCxrDataset.ann (self st)))) 0)
    as [Hz|_]; [|reflexivity].
  destruct (MimicCxrDataset.ann (self st)); [done|simpl in Hz; lia].
Qed.

Lemma list_index_In {A} (l : list A) (i : Z) (x : A) :
  list_index l i = Some x -> In x l.
Proof.
  unfold list_index. destruct (_ <? 0)%Z; [discriminate|].
  intros Hx. apply list_elem_of_In. eapply list_elem_of_lookup_2. exact Hx.
Qed.

(** [l[i]] returns the element the index designates or raises
    [IndexError]. *)
Lemma list_getitem_cases {Self A} (l : list A) (i : Z) (st : state Self) :
  (exists x, list_index l i = Some x /\ list_getitem l i st = (inr x, st))
  \/ list_getitem l i st = (inl IndexError, st).
Proof.
  unfold list_getitem. unfold_monad.
  destruct (list_index l i) as [x|] eqn:Hx; eauto.
Qed.

(** When no image loads, a turn of the loop prints one line and continues
    with the next index. *)
Lemma attempt_fails (index : Z) (st : state dataset) :
  MimicCxrDataset.ann (self st) <> [] ->
  (forall info, In info (MimicCxrDataset.ann (self st)) ->
                loading_fails w (self st) info) ->
  exists l,
    MimicCxrDataset.attempt w index st
    = (inr (inr ((index + 1)
                 mod Z.of_nat (length (MimicCxrDataset.ann (self st))))%Z),
       State (self st) (random st) (stdout st ++ [l])).
Proof.
  intros Hne Hfail.
  assert (Hnext : forall l,
    MimicCxrDataset.next_index index
      (State (self st) (random st) (stdout st ++ [l]))
    = (inr ((index + 1)
            mod Z.of_nat (length (MimicCxrDataset.ann (self st))))%Z,
       State (self st) (random st) (stdout st ++ [l]))).
  { intros l. by rewrite next_index_nonempty. }
  unfold MimicCxrDataset.attempt.
  unfold try_except, mbind, M_bind, get_self.
  destruct (list_getitem_cases (MimicCxrDataset.ann (self st)) index st)
    as [(info & Hin & ->)| ->].
  2:{ unfold print_exn. rewrite Hnext. eexists. reflexivity. }
  apply list_index_In in Hin. specialize (Hfail info Hin st).
  unfold mbind, M_bind, dict_getitem in Hfail.
  unfold dict_getitem.
  destruct (info !! "image_path") as [v|]; simpl in *.
  2:{ unfold print_exn. rewrite Hnext. eexists. reflexivity. }
  destruct (load_image_cases v st) as [[x Hx]|[[l Hl]| Hu]].
  - exfalso. rewrite Hx in Hfail. by apply (Hfail x).
  - rewrite Hl. rewrite Hnext. simpl. eexists. reflexivity.
  - rewrite Hu. unfold print_exn. rewrite Hnext. eexists. reflexivity.
Qed.

Lemma keeps_self_load_image (v : value) :
  keeps_self (MimicCxrDataset.load_image w v : M dataset (option Tensor)).
Proof. unfold MimicCxrDataset.load_image. keeps_self_steps. Qed.

Lemma keeps_self_attempt (index : Z) :
  keeps_self (MimicCxrDataset.attempt (Tensor := Tensor) w index).
Proof.
  unfold MimicCxrDataset.attempt, MimicCxrDataset.next_index,
    MimicCxrDataset.__len__.
  pose proof keeps_self_load_image. keeps_self_steps.
Qed.

(** The [except] branch of the loop never returns a sample. *)
Lemma except_branch_continues (index : Z) (e : exn) (st st' : state dataset)
    (smp : MimicCxrDataset.sample Tensor) :
  (print_exn ("Error processing index " ++ pretty index ++ ": ") e;;
   index ← MimicCxrDataset.next_index index; mret (inr index)) st
  <> (inr (inl smp), st').
Proof.
  unfold MimicCxrDataset.next_index, MimicCxrDataset.__len__, py_mod.
  unfold_monad. simpl. destruct (_ =? 0)%Z; discriminate.
Qed.

Lemma next_index_continues (index : Z) (st st' : state dataset)
    (smp : MimicCxrDataset.sample Tensor) :
  (index ← MimicCxrDataset.next_index index; mret (inr index)) st
  <> (inr (inl smp), st').
Proof.
  unfold MimicCxrDataset.next_index, MimicCxrDataset.__len__, py_mod.
  unfold_monad. simpl. destruct (_ =? 0)%Z; discriminate.
Qed.

(** [random.choice] on the four templates returns one of them. *)
Lemma random_choice_templates {Self} (st : state Self) :
  exists template g,
    random_choice instruction_templates st
    = (inr template, State (self st) g (stdout st))
    /\ In template instruction_templates.
Proof.
  unfold random_choice, randbelow.
  set (k := (draws (random st) (position (random st))
             mod length instruction_templates)%nat).
  do 2 eexists. split; [reflexivity|].
  apply nth_In. subst k. apply Nat.mod_upper_bound. discriminate.
Qed.

(** Where the loop goes on, it goes on with the next index modulo the
    size of the dataset. *)
Lemma next_index_result (index index' : Z) (st st' : state dataset) :
  MimicCxrDataset.next_index index st = (inr index', st') ->
  index' = ((index + 1)
            mod Z.of_nat (length (MimicCxrDataset.ann (self st))))%Z.
Proof.
  unfold MimicCxrDataset.next_index, MimicCxrDataset.__len__, py_mod.
  unfold_monad. simpl. destruct (_ =? 0)%Z; [discriminate|].
  intros H. by injection H as <- <-.
Qed.

Lemma next_index_state (index : Z) (st st' : state dataset)
    (r : exn + Z) :
  MimicCxrDataset.next_index index st = (r, st') -> st' = st.
Proof.
  unfold MimicCxrDataset.next_index, MimicCxrDataset.__len__, py_mod.
  unfold_monad. simpl. destruct (_ =? 0)%Z; congruence.
Qed.

Lemma except_branch_next (index index' : Z) (e : exn)
    (st st' : state dataset) :
  (print_exn ("Error processing index " ++ pretty index ++ ": ") e;;
   index ← MimicCxrDataset.next_index index;
   mret (inr index : MimicCxrDataset.sample Tensor + Z)) st
  = (inr (inr index'), st') ->
  index' = ((index + 1)
            mod Z.of_nat (length (MimicCxrDataset.ann (self st))))%Z.
Proof.
  unfold mbind, M_bind, print_exn at 1.
  destruct (MimicCxrDataset.next_index index _) as [[e1|i] st1] eqn:Hnext;
    [discriminate|].
  apply next_index_result in Hnext. simpl in Hnext.
  unfold mret, M_ret. intros H. by injection H as <- <-.
Qed.

Lemma none_branch_next (index index' : Z) (st st' : state dataset) :
  (index ← MimicCxrDataset.next_index index;
   mret (inr index : MimicCxrDataset.sample Tensor + Z)) st
  = (inr (inr index'), st') ->
  index' = ((index + 1)
            mod Z.of_nat (length (MimicCxrDataset.ann (self st))))%Z.
Proof.
  unfold mbind, M_bind.
  destruct (MimicCxrDataset.next_index index _) as [[e1|i] st1] eqn:Hnext;
    [discriminate|].
  apply next_index_result in Hnext.
  unfold mret, M_ret. intros H. by injection H as <- <-.
Qed.

Lemma attempt_next (index index' : Z) (st st' : state dataset) :
  MimicCxrDataset.attempt w index st = (inr (inr index'), st') ->
  index' = ((index + 1)
            mod Z.of_nat (length (MimicCxrDataset.ann (self st))))%Z.
Proof.
  unfold MimicCxrDataset.attempt.
  unfold try_except, mbind at 1, M_bind at 1, get_self.
  unfold mbind at 1, M_bind at 1.
  destruct (list_getitem_cases (MimicCxrDataset.ann (self st)) index st)
    as [(info & Hin & ->)| ->]; [|apply except_branch_next].
  unfold mbind at 1, M_bind at 1, dict_getitem at 1.
  destruct (info !! "image_path") as [v|]; simpl;
    [|apply except_branch_next].
  unfold mbind at 1, M_bind at 1.
  destruct (load_image_cases v st) as [[x ->]|[[l ->]| ->]];
    [| |apply except_branch_next].
  2:{ unfold mbind at 1, M_bind at 1.
      destruct (MimicCxrDataset.next_index index _) as [[e|i] st1] eqn:Hn.
      - apply next_index_state in Hn as ->.
        apply (except_branch_next index index' e
                 (State (self st) (random st) (stdout st ++ [l]))).
      - apply next_index_result in Hn. unfold mret, M_ret.
        intros H. by injection H as <- <-. }
  unfold mbind at 1, M_bind at 1.
  destruct (random_choice _ st) as [[e|template] st1] eqn:Hchoice.
  { pose proof (keeps_self_random_choice
                  (MimicCxrDataset.instruction_pool (self st)) st) as Hs.
    rewrite Hchoice in Hs. simpl in Hs. rewrite <- Hs.
    apply except_branch_next. }
  pose proof (keeps_self_random_choice
                (MimicCxrDataset.instruction_pool (self st)) st) as Hs.
  rewrite Hchoice in Hs. simpl in Hs. rewrite <- Hs.
  unfold mbind at 1, M_bind at 1, lift at 1.
  destruct (MimicCxrDataset.text_processor _ template) as [e|processed];
    [apply except_branch_next|].
  unfold mbind at 1, M_bind at 1, dict_getitem at 1.
  destruct (info !! "caption") as [caption|]; simpl;
    [|apply except_branch_next].
  unfold mbind at 1, M_bind at 1, dict_getitem at 1.
  destruct (info !! "image_id") as [image_id|]; simpl;
    [|apply except_branch_next].
  discriminate.
Qed.

(** What a turn of the loop returns when it returns. *)
Lemma attempt_returns (index : Z) (st st' : state dataset)
    (smp : MimicCxrDataset.sample Tensor) :
  MimicCxrDataset.instruction_pool (self st) = instruction_templates ->
  MimicCxrDataset.attempt w index st = (inr (inl smp), st') ->
  exists info template processed,
    list_index (MimicCxrDataset.ann (self st)) index = Some info
    /\ In template instruction_templates
    /\ MimicCxrDataset.text_processor (self st) template = inr processed
    /\ MimicCxrDataset.instruction_input smp
       = ("<Img><ImageHere></Img>" ++ " " ++ processed)%string
    /\ info !! "caption" = Some (MimicCxrDataset.answer smp)
    /\ info !! "image_id" = Some (MimicCxrDataset.image_id smp)
    /\ exists p,
        info !! "image_path" = Some p
        /\ MimicCxrDataset.load_image w p st
           = (inr (Some (MimicCxrDataset.image smp)), st).
Proof.
  intros Hpool.
  unfold MimicCxrDataset.attempt.
  unfold try_except, mbind at 1, M_bind at 1, get_self.
  unfold mbind at 1, M_bind at 1.
  destruct (list_getitem_cases (MimicCxrDataset.ann (self st)) index st)
    as [(info & Hin & ->)| ->].
  2:{ intros H. by apply except_branch_continues in H. }
  unfold mbind at 1, M_bind at 1, dict_getitem at 1.
  destruct (info !! "image_path") as [v|] eqn:Hpath; simpl.
  2:{ intros H. by apply except_branch_continues in H. }
  unfold mbind at 1, M_bind at 1.
  destruct (load_image_cases v st) as [[x Hload]|[[l ->]| ->]];
    [rewrite Hload|..].
  3:{ intros H. by apply except_branch_continues in H. }
  2:{ destruct (_ ≫= _) as [[e|r] st1] eqn:Hn.
      - intros H. by apply except_branch_continues in H.
      - intros H. injection H as -> ->. by apply next_index_continues in Hn. }
  rewrite Hpool. unfold mbind at 1, M_bind at 1.
  destruct (random_choice_templates st) as (template & g & -> & Htemplate).
  unfold mbind at 1, M_bind at 1, lift at 1.
  destruct (MimicCxrDataset.text_processor (self st) template)
    as [e|processed] eqn:Hproc.
  { intros H. by apply except_branch_continues in H. }
  unfold mbind at 1, M_bind at 1, dict_getitem at 1.
  destruct (info !! "caption") as [caption|] eqn:Hcaption; simpl.
  2:{ intros H. by apply except_branch_continues in H. }
  unfold mbind at 1, M_bind at 1, dict_getitem at 1.
  destruct (info !! "image_id") as [image_id|] eqn:Hid; simpl.
  2:{ intros H. by apply except_branch_continues in H. }
  intros H. injection H as <- <-. simpl.
  exists info, template, processed. repeat (split; [eauto; fail|]). eauto.
Qed.

(** A sample returned by the loop is returned by one of its turns, after
    fewer than [max_attempts] failed ones, on the same dataset. *)
Lemma while_attempts_returns (k : nat) :
  forall (attempts : nat) (index : Z) (st st' : state dataset)
         (smp : MimicCxrDataset.sample Tensor),
    (attempts + k = MimicCxrDataset.max_attempts)%nat ->
    MimicCxrDataset.while_attempts w index attempts st = (inr smp, st') ->
    exists n index1 st1,
      (n < k)%nat
      /\ failed_attempts w n index st index1 st1
      /\ self st1 = self st
      /\ MimicCxrDataset.attempt w index1 st1 = (inr (inl smp), st').
Proof.
  induction k as [|k IH]; intros attempts index st st' smp Hk;
    rewrite while_attempts_unfold;
    destruct (lt_dec attempts MimicCxrDataset.max_attempts); try lia.
  - discriminate.
  - unfold mbind, M_bind.
    pose proof (keeps_self_attempt index st) as Hself.
    destruct (MimicCxrDataset.attempt w index st) as [[e|[s|index1]] st1]
      eqn:Hattempt; simpl in Hself.
    + discriminate.
    + intros H. injection H as -> ->.
      exists 0%nat, index, st. split; [lia|]. split; [constructor|]. auto.
    + intros H. apply IH in H; [|lia].
      destruct H as (n & index2 & st2 & Hn & Hrun & Hself2 & H).
      exists (S n), index2, st2. split; [lia|]. split; [|split].
      * econstructor; [exact Hattempt| |exact Hrun].
        by apply attempt_next in Hattempt.
      * congruence.
      * assumption.
Qed.

(** From [attempts] on, the loop fails [max_attempts - attempts] times and
    raises. *)
Lemma while_attempts_exhausts (s : dataset) (k : nat) :
  MimicCxrDataset.ann s <> [] ->
  (forall info, In info (MimicCxrDataset.ann s) -> loading_fails w s info) ->
  forall (attempts : nat) (index : Z) (st : state dataset),
    (attempts + k = MimicCxrDataset.max_attempts)%nat ->
    self st = s ->
    exists index' out,
      failed_attempts w k index st index'
        (State s (random st) (stdout st ++ out))
      /\ MimicCxrDataset.while_attempts w index attempts st
         = (inl (RuntimeError "Failed to load valid sample after 10 attempts"),
            State s (random st) (stdout st ++ out))
      /\ length out = k.
Proof.
  intros Hne Hfail.
  induction k as [|k IH]; intros attempts index st Hk Hself.
  - exists index, []. rewrite app_nil_r. subst s. rewrite state_eta.
    split; [constructor|]. split; [|reflexivity].
    rewrite while_attempts_unfold.
    destruct (lt_dec attempts MimicCxrDataset.max_attempts); [lia|].
    reflexivity.
  - subst s.
    destruct (attempt_fails index st Hne Hfail) as [l Hl].
    destruct (IH (attempts + 1)%nat
                ((index + 1)
                 mod Z.of_nat (length (MimicCxrDataset.ann (self st))))%Z
                (State (self st) (random st) (stdout st ++ [l])))
      as (index' & out & Hrun & Hloop & Hlen); [lia|reflexivity|].
    simpl in Hrun, Hloop. rewrite <- app_assoc in Hrun, Hloop.
    exists index', ([l] ++ out). split; [|split].
    + econstructor; [exact Hl|reflexivity|exact Hrun].
    + rewrite while_attempts_unfold.
      destruct (lt_dec attempts MimicCxrDataset.max_attempts); [|lia].
      unfold mbind, M_bind. rewrite Hl. exact Hloop.
    + simpl. by rewrite Hlen.
Qed.

End Training.

(** C2.  On a training dataset that is not empty and in which no record's
    image loads ([load_image] returns [None] or an exception is thrown, at
    every attempt), [__getitem__] makes exactly ten failed attempts, each
    one moving to the next index modulo the size of the dataset and
    printing one line, and then raises the error of exhausted retries.  The
    dataset and the random generator are left as they were. *)
Theorem getitem_exhausts_retries {Tensor : Type} (w : World)
    (index : Z) (st : state (MimicCxrDataset.t Tensor)) :
  MimicCxrDataset.ann (self st) <> [] ->
  (forall info, In info (MimicCxrDataset.ann (self st)) ->
                loading_fails w (self st) info) ->
  exists index' st',
    failed_attempts w 10 index st index' st'
    /\ MimicCxrDataset.__getitem__ w index st
       = (inl (RuntimeError "Failed to load valid sample after 10 attempts"),
          st')
    /\ self st' = self st
    /\ random st' = random st
    /\ exists out, stdout st' = stdout st ++ out /\ length out = 10%nat.
Proof.
  intros Hne Hfail.
  destruct (while_attempts_exhausts w (self st) 10 Hne Hfail 0%nat index st
              eq_refl eq_refl) as (index' & out & Hrun & Hloop & Hlen).
  exists index', (State (self st) (random st) (stdout st ++ out)).
  split; [exact Hrun|]. split; [exact Hloop|]. simpl. eauto.
Qed.

Lemma getitem_exhausts_retries_witness :
  exists index' st',
    failed_attempts Demo.emptied 10 0 (Demo.start Demo.training) index' st'
    /\ MimicCxrDataset.__getitem__ Demo.emptied 0 (Demo.start Demo.training)
       = (inl (RuntimeError "Failed to load valid sample after 10 attempts"),
          st')
    /\ self st' = Demo.training
    /\ random st' = Demo.generator
    /\ exists out, stdout st' = [] ++ out /\ length out = 10%nat.
Proof.
  apply (getitem_exhausts_retries Demo.emptied 0 (Demo.start Demo.training)).
  - discriminate.
  - intros info Hin [s g o] x Hself. simpl in Hself. subst s.
    destruct Hin as [<-|[<-|[]]]; vm_compute; discriminate.
Defined.

(** C3.  A sample that [__getitem__] of the training variant returns has as
    [instruction_input] the image-placeholder tag [<Img><ImageHere></Img>],
    a space, and the text processor applied to one of the four templates of
    the instruction pool; its [answer] is the [caption] and its [image_id]
    the [image_id] of the record it was built from: the record at the index
    the loop has reached, after fewer than ten failed attempts from the
    index asked for. *)
Theorem getitem_sample_shape {Tensor : Type} (w : World) (index : Z)
    (st st' : state (MimicCxrDataset.t Tensor))
    (smp : MimicCxrDataset.sample Tensor) :
  MimicCxrDataset.instruction_pool (self st) = instruction_templates ->
  MimicCxrDataset.__getitem__ w index st = (inr smp, st') ->
  exists n index1 st1 info template processed,
    (n < 10)%nat
    /\ failed_attempts w n index st index1 st1
    /\ list_index (MimicCxrDataset.ann (self st)) index1 = Some info
    /\ In template instruction_templates
    /\ MimicCxrDataset.text_processor (self st) template = inr processed
    /\ MimicCxrDataset.instruction_input smp
       = ("<Img><ImageHere></Img>" ++ " " ++ processed)%string
    /\ info !! "caption" = Some (MimicCxrDataset.answer smp)
    /\ info !! "image_id" = Some (MimicCxrDataset.image_id smp).
Proof.
  intros Hpool Hget.
  apply (while_attempts_returns w 10 0) in Hget; [|reflexivity].
  destruct Hget as (n & index1 & st1 & Hn & Hrun & Hself & Hattempt).
  rewrite <- Hself in Hpool.
  destruct (attempt_returns w index1 st1 st' smp Hpool Hattempt)
    as (info & template & processed & H).
  rewrite Hself in H.
  exists n, index1, st1, info, template, processed. tauto.
Qed.

Lemma getitem_sample_shape_witness :
  exists smp st',
    MimicCxrDataset.__getitem__ Demo.world 0 (Demo.start Demo.training)
    = (inr smp, st')
    /\ MimicCxrDataset.instruction_input smp
       = "<Img><ImageHere></Img> Please provide a detailed description of the picture."
    /\ exists n index1 st1 info template processed,
        (n < 10)%nat
        /\ failed_attempts Demo.world n 0 (Demo.start Demo.training)
             index1 st1
        /\ list_index (MimicCxrDataset.ann Demo.training) index1 = Some info
        /\ In template instruction_templates
        /\ Demo.text_processor template = inr processed
        /\ MimicCxrDataset.instruction_input smp
           = ("<Img><ImageHere></Img>" ++ " " ++ processed)%string
        /\ info !! "caption" = Some (MimicCxrDataset.answer smp)
        /\ info !! "image_id" = Some (MimicCxrDataset.image_id smp).
Proof.
  do 2 eexists. split; [vm_compute; reflexivity|]. split; [reflexivity|].
  eapply (getitem_sample_shape Demo.world 0 (Demo.start Demo.training)).
  - reflexivity.
  - vm_compute. reflexivity.
Defined.

(** C9.  On a training dataset whose validated list is empty, [__getitem__]
    at any index raises [ZeroDivisionError]: the lookup of the first attempt
    raises [IndexError], which the loop catches and prints, and the modulo
    by the size of the dataset in the handler divides by zero.  Neither the
    error of exhausted retries nor the [IndexError] reaches the caller. *)
Theorem getitem_empty_dataset {Tensor : Type} (w : World) (index : Z)
    (st : state (MimicCxrDataset.t Tensor)) :
  MimicCxrDataset.ann (self st) = [] ->
  MimicCxrDataset.__getitem__ w index st
  = (inl ZeroDivisionError,
     State (self st) (random st)
       (stdout st
        ++ [TextExn ("Error processing index " ++ pretty index ++ ": ")
              IndexError])).
Proof.
  intros Hempty.
  unfold MimicCxrDataset.__getitem__. rewrite while_attempts_unfold.
  destruct (lt_dec 0 MimicCxrDataset.max_attempts) as [_|Hge];
    [|unfold MimicCxrDataset.max_attempts in Hge; lia].
  unfold MimicCxrDataset.attempt, MimicCxrDataset.next_index,
    MimicCxrDataset.__len__, list_getitem, list_index, py_mod.
  unfold_monad. simpl. rewrite Hempty. simpl.
  destruct (_ <? 0)%Z; simpl; rewrite Hempty; reflexivity.
Qed.

Lemma getitem_empty_dataset_witness :
  MimicCxrDataset.__getitem__ Demo.world 5
    (Demo.start (MimicCxrDataset.set_ann Demo.training []))
  = (inl ZeroDivisionError,
     State (MimicCxrDataset.set_ann Demo.training []) Demo.generator
       [TextExn "Error processing index 5: " IndexError]).
Proof.
  apply (getitem_empty_dataset Demo.world 5
           (Demo.start (MimicCxrDataset.set_ann Demo.training []))).
  reflexivity.
Defined.

(** ** The evaluation variants *)

Lemma string_length_app (a b : string) :
  String.length (a ++ b) = (String.length a + String.length b)%nat.
Proof. induction a as [|c a IH]; simpl; [reflexivity|by rewrite IH]. Qed.

Section Evaluation.
Context {Tensor : Type}.
Variable w : World.

(** [__getitem__] of the detection variant, statement by statement. *)
Lemma evalDetect_getitem_run (idx : Z)
    (st : state (evalDetectMimicDataset.t Tensor)) :
  evalDetectMimicDataset.__getitem__ w idx st
  = (match list_index (evalDetectMimicDataset.loaded_data (self st)) idx with
     | None => inl IndexError
     | Some data =>
       match data !! "key" with
       | None => inl (KeyError "key")
       | Some img_id =>
         match data !! "objects" with
         | None => inl (KeyError "objects")
         | Some sent =>
           match img_id with
           | VStr k =>
             let image_path :=
               os_path_join w
                 (evalDetectMimicDataset.root_path (self st)) k in
             match Image_open w image_path with
             | inl e => inl e
             | inr f =>
               match file_data_error f with
               | Some e => inl e
               | None =>
                 match evalDetectMimicDataset.vis_processor (self st)
                         (Paste (New RGB (file_size f))
                            (Convert (Opened image_path f) L)) with
                 | inl e => inl e
                 | inr image =>
                     inr (image, ("[detection] " ++ py_str sent)%string,
                          img_id)
                 end
               end
             end
           | _ => inl TypeError
           end
         end
       end
     end, st).
Proof.
  unfold evalDetectMimicDataset.__getitem__, list_getitem, dict_getitem,
    path_join, PIL_open, convert.
  unfold_monad. simpl.
  destruct (list_index _ idx) as [data|]; simpl; [|reflexivity].
  destruct (data !! "key") as [img_id|]; simpl; [|reflexivity].
  destruct (data !! "objects") as [sent|]; simpl; [|reflexivity].
  destruct img_id as [| | |k]; simpl; try reflexivity.
  destruct (Image_open w _) as [e|f]; simpl; [reflexivity|].
  destruct (file_data_error f) as [e|]; simpl; [reflexivity|].
  destruct (evalDetectMimicDataset.vis_processor _ _); reflexivity.
Qed.

(** [__getitem__] of the caption variant, statement by statement: only the
    final [random.choice] touches the state. *)
Lemma evalMIMIC_getitem_run (idx : Z)
    (st : state (evalMIMICDataset.t Tensor)) :
  evalMIMICDataset.__getitem__ w idx st
  = match list_index (evalMIMICDataset.loaded_data (self st)) idx with
    | None => (inl IndexError, st)
    | Some info =>
      match info !! "image_id" with
      | None => (inl (KeyError "image_id"), st)
      | Some image_id =>
        match info !! "image_path" with
        | None => (inl (KeyError "image_path"), st)
        | Some (VStr p) =>
          let image_path :=
            os_path_join w (evalMIMICDataset.root_path (self st)) p in
          match Image_open w image_path with
          | inl e => (inl e, st)
          | inr f =>
            match file_data_error f with
            | Some e => (inl e, st)
            | None =>
              match evalMIMICDataset.vis_processor (self st)
                      (Paste (New RGB (448, 448)%Z)
                         (Resize (Convert (Opened image_path f) L)
                            (448, 448)%Z)) with
              | inl e => (inl e, st)
              | inr image =>
                match info !! "caption" with
                | None => (inl (KeyError "caption"), st)
                | Some _ =>
                  match random_choice
                          (evalMIMICDataset.instruction_pool (self st)) st with
                  | (inl e, st') => (inl e, st')
                  | (inr question, st') =>
                      (inr (image, question,
                            (py_str image_id ++ ".jpg")%string), st')
                  end
                end
              end
            end
          end
        | Some _ => (inl TypeError, st)
        end
      end
    end.
Proof.
  unfold evalMIMICDataset.__getitem__, list_getitem, dict_getitem,
    path_join, PIL_open, convert.
  unfold_monad. simpl.
  destruct (list_index _ idx) as [info|]; simpl; [|reflexivity].
  destruct (info !! "image_id") as [image_id|]; simpl; [|reflexivity].
  destruct (info !! "image_path") as [[| | |p]|]; simpl; try reflexivity.
  destruct (Image_open w _) as [e|f]; simpl; [reflexivity|].
  destruct (file_data_error f) as [e|]; simpl; [reflexivity|].
  destruct (evalMIMICDataset.vis_processor _ _); simpl; [reflexivity|].
  destruct (info !! "caption"); simpl; [|reflexivity].
  destruct (random_choice _ st) as [[e|question] st']; reflexivity.
Qed.

End Evaluation.

(** C4.  In the detection variant, at a valid index, a returned question is
    the literal prefix ["[detection] "] followed by the record's [objects]
    field and the returned identifier is the record's [key]; and when the
    image of a record with a text label loads, that triple is returned, the
    state being left as it was. *)
Theorem detection_question_and_identifier {Tensor : Type} (w : World)
    (idx : Z) (st : state (evalDetectMimicDataset.t Tensor)) (data : record) :
  list_index (evalDetectMimicDataset.loaded_data (self st)) idx = Some data ->
  (forall image question img_id st',
      evalDetectMimicDataset.__getitem__ w idx st
      = (inr (image, question, img_id), st') ->
      exists sent,
        data !! "objects" = Some sent
        /\ question = ("[detection] " ++ py_str sent)%string
        /\ data !! "key" = Some img_id)
  /\ (forall key objects f image,
      data !! "key" = Some (VStr key) ->
      data !! "objects" = Some (VStr objects) ->
      let image_path :=
        os_path_join w (evalDetectMimicDataset.root_path (self st)) key in
      Image_open w image_path = inr f ->
      file_data_error f = None ->
      evalDetectMimicDataset.vis_processor (self st)
        (Paste (New RGB (file_size f)) (Convert (Opened image_path f) L))
      = inr image ->
      evalDetectMimicDataset.__getitem__ w idx st
      = (inr (image, ("[detection] " ++ objects)%string, VStr key), st)).
Proof.
  intros Hdata. split.
  - intros image question img_id st'. rewrite evalDetect_getitem_run.
    rewrite Hdata.
    destruct (data !! "key") as [v|] eqn:Hkey; [|discriminate].
    destruct (data !! "objects") as [sent|] eqn:Hsent; [|discriminate].
    destruct v as [| | |k]; try discriminate. simpl.
    destruct (Image_open w _) as [e|f]; [discriminate|].
    destruct (file_data_error f) as [e|]; [discriminate|].
    destruct (evalDetectMimicDataset.vis_processor _ _); [discriminate|].
    intros H. injection H as <- <- <- <-. eauto.
  - intros key objects f image Hkey Hobjects image_path Hopen Hdecode Hvis.
    rewrite evalDetect_getitem_run. rewrite Hdata, Hkey, Hobjects. simpl.
    fold image_path. rewrite Hopen, Hdecode, Hvis. reflexivity.
Qed.

Lemma detection_question_and_identifier_witness :
  exists image,
    evalDetectMimicDataset.__getitem__ Demo.world 0 (Demo.start Demo.detected)
    = (inr (image, "[detection] cat, dog", VStr "a.jpg"),
       Demo.start Demo.detected).
Proof.
  eexists.
  apply (proj2 (detection_question_and_identifier Demo.world 0
                  (Demo.start Demo.detected)
                  (Demo.detection "a.jpg" "cat, dog") eq_refl)
           "a.jpg" "cat, dog" Demo.sound_file);
    reflexivity.
Defined.

(** C5.  In the caption variant, at a valid index, a returned question is
    one of the four templates of the instruction pool, word for word: the
    class has no text processor to apply, and the question does not have
    the form of the tagged instruction of the training variant. *)
Theorem caption_question_is_a_template {Tensor : Type} (w : World) (idx : Z)
    (st st' : state (evalMIMICDataset.t Tensor))
    (image : Tensor) (question img_id : string) :
  evalMIMICDataset.instruction_pool (self st) = instruction_templates ->
  evalMIMICDataset.__getitem__ w idx st
  = (inr (image, question, img_id), st') ->
  In question instruction_templates
  /\ forall text, question <> ("<Img><ImageHere></Img> " ++ text)%string.
Proof.
  intros Hpool. rewrite evalMIMIC_getitem_run.
  destruct (list_index _ idx) as [info|]; [|discriminate].
  destruct (info !! "image_id") as [v|]; [|discriminate].
  destruct (info !! "image_path") as [[| | |p]|]; try discriminate. simpl.
  destruct (Image_open w _) as [e|f]; [discriminate|].
  destruct (file_data_error f) as [e|]; [discriminate|].
  destruct (evalMIMICDataset.vis_processor _ _); [discriminate|].
  destruct (info !! "caption"); [|discriminate].
  rewrite Hpool.
  destruct (random_choice_templates st) as (template & g & -> & Hin).
  intros H. injection H as <- <- <- <-.
  split; [assumption|].
  intros text ->. simpl in Hin.
  destruct Hin as [H|[H|[H|[H|[]]]]]; discriminate.
Qed.

Lemma caption_question_is_a_template_witness :
  exists image question img_id st',
    evalMIMICDataset.__getitem__ Demo.world 1 (Demo.start Demo.captioned)
    = (inr (image, question, img_id), st')
    /\ question = "Please provide a detailed description of the picture"
    /\ In question instruction_templates
    /\ forall text, question <> ("<Img><ImageHere></Img> " ++ text)%string.
Proof.
  do 4 eexists. split; [vm_compute; reflexivity|]. split; [reflexivity|].
  eapply (caption_question_is_a_template Demo.world 1
            (Demo.start Demo.captioned)).
  - reflexivity.
  - vm_compute. reflexivity.
Defined.

(** C10, as stated, fails: the identifier can be the record's [image_path].
    The record of [Demo.coinciding] has [image_id] ["a"] and [image_path]
    ["a.jpg"]; the access returns the identifier ["a.jpg"], which is the
    path.  So it does not hold that the identifier never is the path. *)
Lemma caption_identifier_counterexample :
  (exists image question st',
      evalMIMICDataset.__getitem__ Demo.world 0 (Demo.start Demo.coinciding)
      = (inr (image, question, "a.jpg"), st')
      /\ list_index (evalMIMICDataset.loaded_data Demo.coinciding) 0
         = Some Demo.coincident
      /\ Demo.coincident !! "image_id" = Some (VStr "a")
      /\ Demo.coincident !! "image_path" = Some (VStr "a.jpg"))
  /\ ~ (forall (w : World) (idx : Z)
               (st st' : state (evalMIMICDataset.t Image))
               (image : Image) (question img_id : string) (info : record),
          evalMIMICDataset.__getitem__ w idx st
          = (inr (image, question, img_id), st') ->
          list_index (evalMIMICDataset.loaded_data (self st)) idx
          = Some info ->
          info !! "image_path" <> Some (VStr img_id)).
Proof.
  split.
  - do 3 eexists. split; [vm_compute; reflexivity|].
    repeat split; reflexivity.
  - intros H.
    eapply (H Demo.world 0%Z (Demo.start Demo.coinciding)).
    + vm_compute. reflexivity.
    + reflexivity.
    + reflexivity.
Qed.

(** C10, amended.  In the caption variant, at a valid index, a returned
    identifier is [str] of the record's [image_id] followed by [.jpg].  It
    is never the raw [image_id].  It is computed from [image_id] alone: it
    is the record's [image_path] only where that path is itself [str] of
    the [image_id] followed by [.jpg]. *)
Theorem caption_identifier {Tensor : Type} (w : World) (idx : Z)
    (st st' : state (evalMIMICDataset.t Tensor))
    (image : Tensor) (question img_id : string) :
  evalMIMICDataset.__getitem__ w idx st
  = (inr (image, question, img_id), st') ->
  exists info image_id,
    list_index (evalMIMICDataset.loaded_data (self st)) idx = Some info
    /\ info !! "image_id" = Some image_id
    /\ img_id = (py_str image_id ++ ".jpg")%string
    /\ VStr img_id <> image_id
    /\ forall p,
        info !! "image_path" = Some (VStr p) ->
        (img_id = p <-> p = (py_str image_id ++ ".jpg")%string).
Proof.
  rewrite evalMIMIC_getitem_run.
  destruct (list_index _ idx) as [info|]; [|discriminate].
  destruct (info !! "image_id") as [v|] eqn:Hid; [|discriminate].
  destruct (info !! "image_path") as [[| | |p]|]; try discriminate. simpl.
  destruct (Image_open w _) as [e|f]; [discriminate|].
  destruct (file_data_error f) as [e|]; [discriminate|].
  destruct (evalMIMICDataset.vis_processor _ _); [discriminate|].
  destruct (info !! "caption"); [|discriminate].
  destruct (random_choice _ st) as [[e|q] st1]; [discriminate|].
  intros H. injection H as <- <- <- <-.
  exists info, v. split; [reflexivity|]. split; [exact Hid|].
  split; [reflexivity|]. split.
  - destruct v as [| | |s]; try discriminate. simpl.
    intros H. injection H as H.
    apply (f_equal String.length) in H.
    rewrite string_length_app in H. simpl in H. lia.
  - intros p' Hp'. split; congruence.
Qed.

Lemma caption_identifier_witness :
  exists image question st',
    evalMIMICDataset.__getitem__ Demo.world 1 (Demo.start Demo.captioned)
    = (inr (image, question, "3.jpg"), st')
    /\ exists info image_id,
        list_index (evalMIMICDataset.loaded_data Demo.captioned) 1 = Some info
        /\ info !! "image_id" = Some image_id
        /\ "3.jpg" = (py_str image_id ++ ".jpg")%string
        /\ VStr "3.jpg" <> image_id
        /\ forall p,
            info !! "image_path" = Some (VStr p) ->
            ("3.jpg" = p <-> p = (py_str image_id ++ ".jpg")%string).
Proof.
  do 3 eexists. split; [vm_compute; reflexivity|].
  eapply (caption_identifier Demo.world 1 (Demo.start Demo.captioned)).
  vm_compute. reflexivity.
Defined.

(** C8.  In both evaluation variants, an error raised while the image is
    opened, decoded or preprocessed is the error [__getitem__] raises, in the
    state it was called in: nothing is printed, no other index is tried, the
    random generator and the validated list are as before.  More generally
    no error of [__getitem__] changes the state. *)
Theorem evaluation_errors_propagate {Tensor : Type} (w : World) :
  (forall (idx : Z) (st : state (evalMIMICDataset.t Tensor))
          (info : record) (image_id : value) (p : string) (e : exn),
      list_index (evalMIMICDataset.loaded_data (self st)) idx = Some info ->
      info !! "image_id" = Some image_id ->
      info !! "image_path" = Some (VStr p) ->
      image_error w (evalMIMICDataset.vis_processor (self st))
        (fun g => Paste (New RGB (448, 448)%Z) (Resize g (448, 448)%Z))
        (os_path_join w (evalMIMICDataset.root_path (self st)) p) e ->
      evalMIMICDataset.__getitem__ w idx st = (inl e, st))
  /\ (forall (idx : Z) (st : state (evalDetectMimicDataset.t Tensor))
          (data : record) (key : string) (sent : value) (e : exn),
      list_index (evalDetectMimicDataset.loaded_data (self st)) idx
      = Some data ->
      data !! "key" = Some (VStr key) ->
      data !! "objects" = Some sent ->
      image_error w (evalDetectMimicDataset.vis_processor (self st))
        (fun g => Paste (New RGB (size g)) g)
        (os_path_join w (evalDetectMimicDataset.root_path (self st)) key) e ->
      evalDetectMimicDataset.__getitem__ w idx st = (inl e, st))
  /\ (forall (idx : Z) (st st' : state (evalMIMICDataset.t Tensor)) (e : exn),
      evalMIMICDataset.__getitem__ w idx st = (inl e, st') -> st' = st)
  /\ (forall (idx : Z) (st st' : state (evalDetectMimicDataset.t Tensor))
          (e : exn),
      evalDetectMimicDataset.__getitem__ w idx st = (inl e, st') -> st' = st).
Proof.
  repeat split.
  - intros idx st info image_id p e Hinfo Hid Hpath Herr.
    rewrite evalMIMIC_getitem_run, Hinfo, Hid, Hpath. simpl.
    destruct Herr as [Hopen|f Hopen Hdecode|f Hopen Hdecode Hvis];
      rewrite Hopen; [reflexivity|rewrite Hdecode..]; [reflexivity|].
    by rewrite Hvis.
  - intros idx st data key sent e Hdata Hkey Hsent Herr.
    rewrite evalDetect_getitem_run, Hdata, Hkey, Hsent. simpl.
    destruct Herr as [Hopen|f Hopen Hdecode|f Hopen Hdecode Hvis];
      rewrite Hopen; [reflexivity|rewrite Hdecode..]; [reflexivity|].
    simpl in Hvis. by rewrite Hvis.
  - intros idx st st' e. rewrite evalMIMIC_getitem_run.
    destruct (list_index _ idx) as [info|]; [|congruence].
    destruct (info !! "image_id") as [v|]; [|congruence].
    destruct (info !! "image_path") as [[| | |p]|]; try congruence. simpl.
    destruct (Image_open w _) as [e1|f]; [congruence|].
    destruct (file_data_error f) as [e1|]; [congruence|].
    destruct (evalMIMICDataset.vis_processor _ _); [congruence|].
    destruct (info !! "caption"); [|congruence].
    unfold random_choice.
    destruct (evalMIMICDataset.instruction_pool (self st)); [congruence|].
    discriminate.
  - intros idx st st' e. rewrite evalDetect_getitem_run. congruence.
Qed.

Lemma evaluation_errors_propagate_witness :
  evalMIMICDataset.__getitem__ Demo.emptied 0 (Demo.start Demo.captioned)
  = (inl (Raised "FileNotFoundError" "/data/a.jpg"),
     Demo.start Demo.captioned)
  /\ evalDetectMimicDataset.__getitem__ Demo.world 2
       (Demo.start Demo.detected)
     = (inl (Raised "OSError" "image file is truncated"),
        Demo.start Demo.detected)
  /\ evalDetectMimicDataset.__getitem__ Demo.world 0
       (Demo.start Demo.detected_strictly)
     = (inl (Raised "ValueError" "unsupported image"),
        Demo.start Demo.detected_strictly).
Proof.
  destruct (evaluation_errors_propagate (Tensor := Image) Demo.emptied)
    as (Hcaption & _ & _ & _).
  destruct (evaluation_errors_propagate (Tensor := Image) Demo.world)
    as (_ & Hdetect & _ & _).
  split; [|split].
  - apply (Hcaption 0%Z (Demo.start Demo.captioned)
             (Demo.annotation "a.jpg" "clear lungs" 1) (VInt 1) "a.jpg");
      [reflexivity..|].
    apply error_opening. reflexivity.
  - apply (Hdetect 2%Z (Demo.start Demo.detected)
             (Demo.detection "d.jpg" "nodule") "d.jpg" (VStr "nodule"));
      [reflexivity..|].
    apply (error_decoding _ _ _ _ _ Demo.damaged_file); reflexivity.
  - apply (Hdetect 0%Z (Demo.start Demo.detected_strictly)
             (Demo.detection "a.jpg" "cat, dog") "a.jpg" (VStr "cat, dog"));
      [reflexivity..|].
    apply (error_preprocessing _ _ _ _ _ Demo.sound_file); reflexivity.
Defined.

(** C6.  The image the detection variant hands to its processor is the
    file converted to grayscale and pasted on an RGB canvas of the size of
    the file: it is never resized.  The image the training and the caption
    variants hand to theirs is the file converted to grayscale, resized to
    448 by 448, and pasted on an RGB canvas of that size. *)
Theorem resize_in_all_but_detection {Tensor : Type} (w : World) :
  (forall (index : Z) (st st' : state (MimicCxrDataset.t Tensor))
          (smp : MimicCxrDataset.sample Tensor),
      MimicCxrDataset.instruction_pool (self st) = instruction_templates ->
      MimicCxrDataset.__getitem__ w index st = (inr smp, st') ->
      exists path f image,
        Image_open w path = inr f
        /\ image = Paste (New RGB (448, 448)%Z)
                     (Resize (Convert (Opened path f) L) (448, 448)%Z)
        /\ MimicCxrDataset.vis_processor (self st) image
           = inr (MimicCxrDataset.image smp)
        /\ size image = (448, 448)%Z
        /\ resized image = true)
  /\ (forall (idx : Z) (st st' : state (evalMIMICDataset.t Tensor))
          (x : Tensor) (question img_id : string),
      evalMIMICDataset.__getitem__ w idx st
      = (inr (x, question, img_id), st') ->
      exists path f image,
        Image_open w path = inr f
        /\ image = Paste (New RGB (448, 448)%Z)
                     (Resize (Convert (Opened path f) L) (448, 448)%Z)
        /\ evalMIMICDataset.vis_processor (self st) image = inr x
        /\ size image = (448, 448)%Z
        /\ resized image = true)
  /\ (forall (idx : Z) (st st' : state (evalDetectMimicDataset.t Tensor))
          (x : Tensor) (question : string) (img_id : value),
      evalDetectMimicDataset.__getitem__ w idx st
      = (inr (x, question, img_id), st') ->
      exists path f image,
        Image_open w path = inr f
        /\ image = Paste (New RGB (file_size f)) (Convert (Opened path f) L)
        /\ evalDetectMimicDataset.vis_processor (self st) image = inr x
        /\ size image = file_size f
        /\ resized image = false).
Proof.
  split; [|split].
  - intros index st st' smp Hpool Hget.
    apply (while_attempts_returns w 10 0) in Hget; [|reflexivity].
    destruct Hget as (n & index1 & st1 & _ & _ & Hself & Hattempt).
    rewrite <- Hself in *.
    destruct (attempt_returns w index1 st1 st' smp Hpool Hattempt)
      as (info & template & processed & _ & _ & _ & _ & _ & _ & v & _ & Hload).
    apply load_image_returns in Hload.
    destruct Hload as (p & f & _ & Hopen & _ & Hvis).
    do 3 eexists. split; [exact Hopen|]. split; [reflexivity|].
    split; [exact Hvis|]. split; reflexivity.
  - intros idx st st' x question img_id. rewrite evalMIMIC_getitem_run.
    destruct (list_index _ idx) as [info|]; [|discriminate].
    destruct (info !! "image_id") as [v|]; [|discriminate].
    destruct (info !! "image_path") as [[| | |p]|]; try discriminate. simpl.
    destruct (Image_open w _) as [e|f] eqn:Hopen; [discriminate|].
    destruct (file_data_error f) as [e|]; [discriminate|].
    destruct (evalMIMICDataset.vis_processor _ _) as [e|y] eqn:Hvis;
      [discriminate|].
    destruct (info !! "caption"); [|discriminate].
    destruct (random_choice _ st) as [[e|q] st1]; [discriminate|].
    intros H. injection H as <- <- <- <-.
    do 3 eexists. split; [exact Hopen|]. split; [reflexivity|].
    split; [exact Hvis|]. split; reflexivity.
  - intros idx st st' x question img_id. rewrite evalDetect_getitem_run.
    destruct (list_index _ idx) as [data|]; [|discriminate].
    destruct (data !! "key") as [v|]; [|discriminate].
    destruct (data !! "objects") as [sent|]; [|discriminate].
    destruct v as [| | |k]; try discriminate. simpl.
    destruct (Image_open w _) as [e|f] eqn:Hopen; [discriminate|].
    destruct (file_data_error f) as [e|]; [discriminate|].
    destruct (evalDetectMimicDataset.vis_processor _ _) as [e|y] eqn:Hvis;
      [discriminate|].
    intros H. injection H as <- <- <- <-.
    do 3 eexists. split; [exact Hopen|]. split; [reflexivity|].
    split; [exact Hvis|]. split; reflexivity.
Qed.

Lemma resize_in_all_but_detection_witness :
  (exists smp st',
      MimicCxrDataset.__getitem__ Demo.world 0 (Demo.start Demo.training)
      = (inr smp, st')
      /\ size (MimicCxrDataset.image smp) = (448, 448)%Z
      /\ exists path f image,
          Image_open Demo.world path = inr f
          /\ image = Paste (New RGB (448, 448)%Z)
                       (Resize (Convert (Opened path f) L) (448, 448)%Z)
          /\ Demo.vis_processor image = inr (MimicCxrDataset.image smp)
          /\ size image = (448, 448)%Z
          /\ resized image = true)
  /\ (exists x question img_id st',
      evalMIMICDataset.__getitem__ Demo.world 0 (Demo.start Demo.captioned)
      = (inr (x, question, img_id), st')
      /\ size x = (448, 448)%Z
      /\ exists path f image,
          Image_open Demo.world path = inr f
          /\ image = Paste (New RGB (448, 448)%Z)
                       (Resize (Convert (Opened path f) L) (448, 448)%Z)
          /\ Demo.vis_processor image = inr x
          /\ size image = (448, 448)%Z
          /\ resized image = true)
  /\ (exists x question img_id st',
      evalDetectMimicDataset.__getitem__ Demo.world 0
        (Demo.start Demo.detected)
      = (inr (x, question, img_id), st')
      /\ size x = (1024, 768)%Z
      /\ exists path f image,
          Image_open Demo.world path = inr f
          /\ image = Paste (New RGB (file_size f)) (Convert (Opened path f) L)
          /\ Demo.vis_processor image = inr x
          /\ size image = file_size f
          /\ resized image = false).
Proof.
  destruct (resize_in_all_but_detection (Tensor := Image) Demo.world)
    as (Htraining & Hcaption & Hdetect).
  split; [|split].
  - do 2 eexists. split; [vm_compute; reflexivity|]. split; [reflexivity|].
    eapply (Htraining 0%Z (Demo.start Demo.training)).
    + reflexivity.
    + vm_compute. reflexivity.
  - do 4 eexists. split; [vm_compute; reflexivity|]. split; [reflexivity|].
    eapply (Hcaption 0%Z (Demo.start Demo.captioned)).
    vm_compute. reflexivity.
  - do 4 eexists. split; [vm_compute; reflexivity|]. split; [reflexivity|].
    eapply (Hdetect 0%Z (Demo.start Demo.detected)).
    vm_compute. reflexivity.
Defined.

(** C7.  In the caption variant, [__getitem__] reads the record's
    [caption] after the image is ready: where the field is absent the
    access fails with [KeyError], and where it is present the access
    returns the triple of the image, the template drawn from the pool and
    the identifier.  That triple does not hold the caption: it is the same
    whatever the caption is, and two records that differ in their captions
    only give the same result and the same effects.  Validation looks at
    the image file alone: a record whose file exists is kept, with or
    without a caption. *)
Theorem caption_read_but_not_returned {Tensor : Type} (w : World) :
  (forall (idx : Z) (st : state (evalMIMICDataset.t Tensor))
          (info : record) (image_id : value) (p : string)
          (f : image_file) (x : Tensor),
      list_index (evalMIMICDataset.loaded_data (self st)) idx = Some info ->
      info !! "image_id" = Some image_id ->
      info !! "image_path" = Some (VStr p) ->
      let image_path :=
        os_path_join w (evalMIMICDataset.root_path (self st)) p in
      Image_open w image_path = inr f ->
      file_data_error f = None ->
      evalMIMICDataset.vis_processor (self st)
        (Paste (New RGB (448, 448)%Z)
           (Resize (Convert (Opened image_path f) L) (448, 448)%Z))
      = inr x ->
      (info !! "caption" = None ->
       evalMIMICDataset.__getitem__ w idx st
       = (inl (KeyError "caption"), st))
      /\ (forall caption : value,
            info !! "caption" = Some caption ->
            evalMIMICDataset.instruction_pool (self st)
            = instruction_templates ->
            evalMIMICDataset.__getitem__ w idx st
            = (inr (x, chosen_template (random st),
                    (py_str image_id ++ ".jpg")%string),
               State (self st) (drawn (random st)) (stdout st))))
  /\ (forall (idx : Z) (st : state (evalMIMICDataset.t Tensor))
          (records : list record) (info info' : record) (c c' : value),
      list_index (evalMIMICDataset.loaded_data (self st)) idx = Some info ->
      list_index records idx = Some info' ->
      info !! "image_id" = info' !! "image_id" ->
      info !! "image_path" = info' !! "image_path" ->
      info !! "caption" = Some c ->
      info' !! "caption" = Some c' ->
      let st2 :=
        State (evalMIMICDataset.set_loaded_data (self st) records)
          (random st) (stdout st) in
      fst (evalMIMICDataset.__getitem__ w idx st2)
      = fst (evalMIMICDataset.__getitem__ w idx st)
      /\ random (snd (evalMIMICDataset.__getitem__ w idx st2))
         = random (snd (evalMIMICDataset.__getitem__ w idx st))
      /\ stdout (snd (evalMIMICDataset.__getitem__ w idx st2))
         = stdout (snd (evalMIMICDataset.__getitem__ w idx st)))
  /\ (forall (items : list record) (vp : Image -> exn + Tensor)
          (root_path : string) (st : state unit),
      well_formed "image_path" items = true ->
      exists ds st',
        evalMIMICDataset.__init__ w items vp root_path st = (inr ds, st')
        /\ forall item,
            In item items ->
            image_exists w root_path "image_path" item = true ->
            In item (evalMIMICDataset.loaded_data ds)).
Proof.
  split; [|split].
  - intros idx st info image_id p f x Hinfo Hid Hpath image_path
      Hopen Hdecode Hvis.
    split.
    + intros Hcaption.
      rewrite evalMIMIC_getitem_run, Hinfo, Hid, Hpath. simpl.
      fold image_path. by rewrite Hopen, Hdecode, Hvis, Hcaption.
    + intros caption Hcaption Hpool.
      rewrite evalMIMIC_getitem_run, Hinfo, Hid, Hpath. simpl.
      fold image_path. rewrite Hopen, Hdecode, Hvis, Hcaption, Hpool.
      reflexivity.
  - intros idx st records info info' c c' Hinfo Hinfo' Hid Hpath Hc Hc' st2.
    subst st2. rewrite !evalMIMIC_getitem_run. simpl.
    rewrite Hinfo, Hinfo', <- Hid, <- Hpath, Hc, Hc'.
    destruct (info !! "image_id") as [v|]; [|auto].
    destruct (info !! "image_path") as [[| | |p]|]; auto. simpl.
    destruct (Image_open w _) as [e|f]; [auto|].
    destruct (file_data_error f) as [e|]; [auto|].
    destruct (evalMIMICDataset.vis_processor _ _); [auto|].
    unfold random_choice.
    destruct (evalMIMICDataset.instruction_pool (self st)); auto.
  - intros items vp root_path st Hwf.
    destruct (evalMIMIC_init_spec w items vp root_path st Hwf)
      as (ds & st' & Hinit & Hdata & _).
    exists ds, st'. split; [exact Hinit|].
    intros item Hin Hexists. rewrite Hdata.
    apply filter_In. auto.
Qed.

Lemma caption_read_but_not_returned_witness :
  evalMIMICDataset.__getitem__ Demo.world 0
    (Demo.start Demo.captioned_in_part)
  = (inl (KeyError "caption"), Demo.start Demo.captioned_in_part)
  /\ evalMIMICDataset.__getitem__ Demo.world 0 (Demo.start Demo.captioned)
     = (inr (Paste (New RGB (448, 448)%Z)
               (Resize (Convert (Opened "/data/a.jpg" Demo.sound_file) L)
                  (448, 448)%Z),
             "Please provide a detailed description of the picture",
             "1.jpg"),
        State Demo.captioned (drawn Demo.generator) [])
  /\ fst (evalMIMICDataset.__getitem__ Demo.world 0
            (Demo.start
               (evalMIMICDataset.set_loaded_data Demo.captioned
                  [Demo.annotation "a.jpg" "no acute findings" 1])))
     = fst (evalMIMICDataset.__getitem__ Demo.world 0
              (Demo.start Demo.captioned))
  /\ exists ds st',
      evalMIMICDataset.__init__ Demo.world
        [Demo.uncaptioned; Demo.annotation "b.jpg" "small effusion" 2]
        Demo.vis_processor "/data" (Demo.start tt)
      = (inr ds, st')
      /\ In Demo.uncaptioned (evalMIMICDataset.loaded_data ds).
Proof.
  destruct (caption_read_but_not_returned (Tensor := Image) Demo.world)
    as (Hread & Hsame & Hkept).
  split; [|split; [|split]].
  - apply (Hread 0%Z (Demo.start Demo.captioned_in_part) Demo.uncaptioned
             (VInt 1) "a.jpg" Demo.sound_file
             (Paste (New RGB (448, 448)%Z)
                (Resize (Convert (Opened "/data/a.jpg" Demo.sound_file) L)
                   (448, 448)%Z)));
      reflexivity.
  - apply (proj2 (Hread 0%Z (Demo.start Demo.captioned)
                    (Demo.annotation "a.jpg" "clear lungs" 1)
                    (VInt 1) "a.jpg" Demo.sound_file
                    (Paste (New RGB (448, 448)%Z)
                       (Resize
                          (Convert (Opened "/data/a.jpg" Demo.sound_file) L)
                          (448, 448)%Z))
                    eq_refl eq_refl eq_refl eq_refl eq_refl eq_refl)
             (VStr "clear lungs"));
      reflexivity.
  - apply (Hsame 0%Z (Demo.start Demo.captioned)
             [Demo.annotation "a.jpg" "no acute findings" 1]
             (Demo.annotation "a.jpg" "clear lungs" 1)
             (Demo.annotation "a.jpg" "no acute findings" 1)
             (VStr "clear lungs") (VStr "no acute findings"));
      reflexivity.
  - destruct (Hkept [Demo.uncaptioned;
                     Demo.annotation "b.jpg" "small effusion" 2]
                Demo.vis_processor "/data" (Demo.start tt) eq_refl)
      as (ds & st' & Hinit & Hin).
    exists ds, st'. split; [exact Hinit|].
    apply Hin; [left|]; reflexivity.
Defined.

(** * Further properties *)

(** ** Construction: output, malformed records, validating twice *)

Section ValidationRuns.
Context {Self : Type}.
Variable w : World.
Variables root field : string.

Lemma missing_paths_length (items : list record) :
  well_formed field items = true ->
  length (missing_paths w root field items) = missing_files w root field items.
Proof.
  unfold missing_files, image_exists.
  induction items as [|item rest IH]; simpl; [reflexivity|].
  intros Hwf. apply andb_true_iff in Hwf as [Hitem Hrest].
  unfold resolved_path.
  destruct (item !! field) as [[| | |s]|]; try discriminate.
  destruct (os_path_exists w _); simpl; rewrite IH; auto.
Qed.

(** The loop prints the missing paths while its count is at most ten. *)
Lemma validate_loop_output (items : list record) :
  well_formed field items = true ->
  forall (valid : list record) (missing_count : nat) (st : state Self),
    validate_loop w root field items valid missing_count st
    = (inr (valid ++ List.filter (image_exists w root field) items,
            (missing_count + length (missing_paths w root field items))%nat),
       State (self st) (random st)
         (stdout st
          ++ map (fun p => Text ("Missing: " ++ p))
               (take (10 - missing_count)
                  (missing_paths w root field items)))).
Proof.
  induction items as [|item rest IH]; intros Hwf valid mc st.
  - simpl. unfold mret, M_ret. rewrite take_nil. simpl.
    rewrite !app_nil_r, Nat.add_0_r. by destruct st.
  - simpl in Hwf. apply andb_true_iff in Hwf as [Hitem Hrest].
    destruct (item !! field) as [[| | |s]|] eqn:Hlook; try discriminate.
    simpl. unfold mbind, M_bind, dict_getitem. rewrite Hlook. simpl.
    unfold image_exists, resolved_path. rewrite Hlook. simpl.
    destruct (os_path_exists w (os_path_join w root s)) eqn:Hex; simpl.
    + rewrite (IH Hrest). by rewrite <- app_assoc.
    + destruct (Nat.leb_spec mc 9) as [Hle|Hgt].
      * unfold print at 1. rewrite (IH Hrest). simpl.
        replace (10 - mc)%nat with (S (9 - mc)) by lia. simpl.
        rewrite <- app_assoc. simpl.
        do 3 f_equal. lia.
      * unfold mret at 1, M_ret at 1. rewrite (IH Hrest).
        replace (10 - mc)%nat with 0%nat by lia.
        replace (10 - S mc)%nat with 0%nat by lia.
        rewrite !take_0. do 3 f_equal. lia.
Qed.

(** The loop stops at the first record whose path cannot be read. *)
Lemma validate_loop_malformed (good rest : list record) (bad : record)
    (e : exn) :
  well_formed field good = true ->
  field_error field bad = Some e ->
  forall (valid : list record) (missing_count : nat) (st : state Self),
    fst (validate_loop w root field (good ++ bad :: rest) valid
           missing_count st) = inl e.
Proof.
  intros Hwf Hbad valid mc st.
  revert valid mc st.
  induction good as [|item good IH]; intros valid mc st.
  - simpl. unfold field_error in Hbad.
    unfold mbind, M_bind, dict_getitem.
    destruct (bad !! field) as [[| | |s]|]; simpl; congruence.
  - simpl in Hwf. apply andb_true_iff in Hwf as [Hitem Hgood].
    destruct (item !! field) as [[| | |s]|] eqn:Hlook; try discriminate.
    simpl. unfold mbind at 1, M_bind at 1, dict_getitem at 1.
    rewrite Hlook. simpl.
    unfold mbind at 1, M_bind at 1, mret at 1, M_ret at 1.
    destruct (os_path_exists w _); [by apply IH|].
    unfold mbind at 1, M_bind at 1.
    destruct (mc <=? 9)%nat; simpl; by apply IH.
Qed.

(** A loop that comes to its end has read the path of every record. *)
Lemma validate_loop_success (items : list record) :
  forall (valid : list record) (missing_count : nat) (st st' : state Self)
         (r : list record * nat),
    validate_loop w root field items valid missing_count st = (inr r, st') ->
    well_formed field items = true.
Proof.
  induction items as [|item rest IH]; intros valid mc st st' r;
    [reflexivity|].
  simpl. unfold mbind at 1, M_bind at 1, dict_getitem at 1.
  destruct (item !! field) as [[| | |s]|]; simpl; try discriminate.
  unfold mbind at 1, M_bind at 1, mret at 1, M_ret at 1.
  destruct (os_path_exists w _); [apply IH|].
  unfold mbind at 1, M_bind at 1.
  destruct (mc <=? 9)%nat; simpl; apply IH.
Qed.

(** The records validation keeps are well formed and all have their file. *)
Lemma filter_well_formed (items : list record) :
  well_formed field (List.filter (image_exists w root field) items) = true.
Proof.
  induction items as [|item rest IH]; simpl; [reflexivity|].
  destruct (image_exists w root field item) eqn:Hex; [|assumption].
  simpl. rewrite IH.
  unfold image_exists, resolved_path in Hex.
  by destruct (item !! field) as [[| | |s]|].
Qed.

Lemma filter_twice (items : list record) :
  List.filter (image_exists w root field)
    (List.filter (image_exists w root field) items)
  = List.filter (image_exists w root field) items.
Proof.
  induction items as [|item rest IH]; simpl; [reflexivity|].
  destruct (image_exists w root field item) eqn:Hex; [|assumption].
  simpl. by rewrite Hex, IH.
Qed.

Lemma missing_paths_filter (items : list record) :
  missing_paths w root field
    (List.filter (image_exists w root field) items) = [].
Proof.
  induction items as [|item rest IH]; simpl; [reflexivity|].
  destruct (image_exists w root field item) eqn:Hex; [|assumption].
  simpl. unfold image_exists in Hex.
  destruct (resolved_path w root field item); [|discriminate].
  by rewrite Hex.
Qed.

End ValidationRuns.

Section ConstructionRuns.
Context {Tensor : Type}.
Variable w : World.

Lemma validation_summary_run {Self} (name : string)
    (total missing_count valid : nat) (st : state Self) :
  validation_summary name total missing_count valid st
  = (inr tt,
     State (self st) (random st)
       (stdout st
        ++ (if (10 <? missing_count)%nat
            then [Text ("... and " ++ pretty (missing_count - 10)%nat
                        ++ " more missing files")]
            else [])
        ++ [Text (String "010"%char (name ++ " validation complete:"));
            Text ("  Total samples: " ++ pretty total);
            Text ("  Missing files: " ++ pretty missing_count);
            Text ("  Valid samples: " ++ pretty valid)])).
Proof.
  unfold validation_summary. unfold_monad.
  destruct (10 <? missing_count)%nat; simpl;
    rewrite <- ?app_assoc; simpl; reflexivity.
Qed.

Lemma MimicCxr_init_run (vp : Image -> exn + Tensor)
    (tp : string -> exn + string) (vis_root ann_path : string)
    (items : list record) (st : state unit) :
  json_load w ann_path = inr items ->
  well_formed "image_path" items = true ->
  MimicCxrDataset.__init__ w vp tp vis_root ann_path st
  = (inr {| MimicCxrDataset.vis_root := vis_root;
            MimicCxrDataset.vis_processor := vp;
            MimicCxrDataset.text_processor := tp;
            MimicCxrDataset.ann :=
              List.filter (image_exists w vis_root "image_path") items;
            MimicCxrDataset.instruction_pool := instruction_templates |},
     State tt (random st)
       (stdout st
        ++ validation_output w "Validating dataset..." "Dataset" vis_root
             "image_path" items)).
Proof.
  intros Hload Hwf.
  unfold MimicCxrDataset.__init__, construct,
    MimicCxrDataset._validate_dataset.
  unfold mbind, M_bind, lift, get_self, print at 1, set_self.
  rewrite Hload. simpl.
  rewrite (validate_loop_output w vis_root "image_path" items Hwf).
  rewrite validation_summary_run. simpl.
  unfold validation_output, MimicCxrDataset.set_ann. simpl.
  rewrite <- !app_assoc. reflexivity.
Qed.

Lemma evalMIMIC_init_run (items : list record)
    (vp : Image -> exn + Tensor) (root_path : string) (st : state unit) :
  well_formed "image_path" items = true ->
  evalMIMICDataset.__init__ w items vp root_path st
  = (inr {| evalMIMICDataset.loaded_data :=
              List.filter (image_exists w root_path "image_path") items;
            evalMIMICDataset.root_path := root_path;
            evalMIMICDataset.vis_processor := vp;
            evalMIMICDataset.instruction_pool := instruction_templates |},
     State tt (random st)
       (stdout st
        ++ validation_output w "Validating evalMIMIC dataset..." "evalMIMIC"
             root_path "image_path" items)).
Proof.
  intros Hwf.
  unfold evalMIMICDataset.__init__, construct,
    evalMIMICDataset._validate_dataset.
  unfold mbind, M_bind, get_self, print at 1, set_self. simpl.
  rewrite (validate_loop_output w root_path "image_path" items Hwf).
  rewrite validation_summary_run. simpl.
  unfold validation_output, evalMIMICDataset.set_loaded_data. simpl.
  rewrite <- !app_assoc. reflexivity.
Qed.

Lemma evalDetect_init_run (items : list record)
    (vp : Image -> exn + Tensor) (root_path : string) (st : state unit) :
  well_formed "key" items = true ->
  evalDetectMimicDataset.__init__ w items vp root_path st
  = (inr {| evalDetectMimicDataset.loaded_data :=
              List.filter (image_exists w root_path "key") items;
            evalDetectMimicDataset.root_path := root_path;
            evalDetectMimicDataset.vis_processor := vp |},
     State tt (random st)
       (stdout st
        ++ validation_output w "Validating evalDetectMimic dataset..."
             "evalDetectMimic" root_path "key" items)).
Proof.
  intros Hwf.
  unfold evalDetectMimicDataset.__init__, construct,
    evalDetectMimicDataset._validate_dataset.
  unfold mbind, M_bind, get_self, print at 1, set_self. simpl.
  rewrite (validate_loop_output w root_path "key" items Hwf).
  rewrite validation_summary_run. simpl.
  unfold validation_output, evalDetectMimicDataset.set_loaded_data. simpl.
  rewrite <- !app_assoc. reflexivity.
Qed.

End ConstructionRuns.

(** X1.  What a constructor prints is fixed by the records and the files:
    its heading, the paths of the first ten missing files in input order,
    the line counting the further ones when there are more than ten, and the
    three counts.  Nothing else is printed and the generator is not used. *)
Theorem construction_output {Tensor : Type} (w : World)
    (items : list record) (st : state unit) :
  (forall (vp : Image -> exn + Tensor) (tp : string -> exn + string)
          (vis_root ann_path : string),
      json_load w ann_path = inr items ->
      well_formed "image_path" items = true ->
      exists ds,
        MimicCxrDataset.__init__ w vp tp vis_root ann_path st
        = (inr ds,
           State tt (random st)
             (stdout st
              ++ validation_output w "Validating dataset..." "Dataset"
                   vis_root "image_path" items)))
  /\ (forall (vp : Image -> exn + Tensor) (root_path : string),
      well_formed "image_path" items = true ->
      exists ds,
        evalMIMICDataset.__init__ w items vp root_path st
        = (inr ds,
           State tt (random st)
             (stdout st
              ++ validation_output w "Validating evalMIMIC dataset..."
                   "evalMIMIC" root_path "image_path" items)))
  /\ (forall (vp : Image -> exn + Tensor) (root_path : string),
      well_formed "key" items = true ->
      exists ds,
        evalDetectMimicDataset.__init__ w items vp root_path st
        = (inr ds,
           State tt (random st)
             (stdout st
              ++ validation_output w "Validating evalDetectMimic dataset..."
                   "evalDetectMimic" root_path "key" items))).
Proof.
  split; [|split].
  - intros vp tp vis_root ann_path Hload Hwf. eexists.
    by apply MimicCxr_init_run.
  - intros vp root_path Hwf. eexists. by apply evalMIMIC_init_run.
  - intros vp root_path Hwf. eexists. by apply evalDetect_init_run.
Qed.

Lemma construction_output_witness :
  exists ds,
    evalMIMICDataset.__init__ Demo.world Demo.mostly_missing
      Demo.vis_processor "/data" (Demo.start tt)
    = (inr ds,
       State tt Demo.generator
         [Text "Validating evalMIMIC dataset...";
          Text "Missing: /data/m1.jpg"; Text "Missing: /data/m2.jpg";
          Text "Missing: /data/m3.jpg"; Text "Missing: /data/m4.jpg";
          Text "Missing: /data/m5.jpg"; Text "Missing: /data/m6.jpg";
          Text "Missing: /data/m7.jpg"; Text "Missing: /data/m8.jpg";
          Text "Missing: /data/m9.jpg"; Text "Missing: /data/m10.jpg";
          Text "... and 2 more missing files";
          Text (String "010"%char "evalMIMIC validation complete:");
          Text "  Total samples: 13";
          Text "  Missing files: 12";
          Text "  Valid samples: 1"]).
Proof.
  destruct (construction_output (Tensor := Image) Demo.world
              Demo.mostly_missing (Demo.start tt)) as (_ & Hcaption & _).
  destruct (Hcaption Demo.vis_processor "/data" eq_refl) as [ds Hds].
  exists ds. rewrite Hds. reflexivity.
Defined.

(** X2.  Construction fails where the records cannot be validated: the
    first record without the field that names its file raises [KeyError],
    the first one whose field is no string raises [TypeError], and no
    dataset is built, whatever follows in the list.  An annotation file
    that cannot be loaded fails the training constructor with the error of
    the load, before anything is printed. *)
Theorem construction_rejects_malformed_records {Tensor : Type} (w : World)
    (good rest : list record) (bad : record) (e : exn) (st : state unit) :
  (forall (vp : Image -> exn + Tensor) (tp : string -> exn + string)
          (vis_root ann_path : string),
      json_load w ann_path = inr (good ++ bad :: rest) ->
      well_formed "image_path" good = true ->
      field_error "image_path" bad = Some e ->
      fst (MimicCxrDataset.__init__ w vp tp vis_root ann_path st) = inl e)
  /\ (forall (vp : Image -> exn + Tensor) (tp : string -> exn + string)
          (vis_root ann_path : string),
      json_load w ann_path = inl e ->
      MimicCxrDataset.__init__ w vp tp vis_root ann_path st = (inl e, st))
  /\ (forall (vp : Image -> exn + Tensor) (root_path : string),
      well_formed "image_path" good = true ->
      field_error "image_path" bad = Some e ->
      fst (evalMIMICDataset.__init__ w (good ++ bad :: rest) vp root_path st)
      = inl e)
  /\ (forall (vp : Image -> exn + Tensor) (root_path : string),
      well_formed "key" good = true ->
      field_error "key" bad = Some e ->
      fst (evalDetectMimicDataset.__init__ w (good ++ bad :: rest) vp
             root_path st)
      = inl e).
Proof.
  repeat split.
  - intros vp tp vis_root ann_path Hload Hwf Hbad.
    unfold MimicCxrDataset.__init__, construct,
      MimicCxrDataset._validate_dataset.
    unfold mbind, M_bind, lift, get_self, print at 1. rewrite Hload. simpl.
    match goal with
    | |- context [validate_loop ?w ?r ?f ?l ?v ?m ?st] =>
        pose proof (validate_loop_malformed w r f good rest bad e Hwf Hbad
                      v m st) as H;
        destruct (validate_loop w r f l v m st) as [[e1|[r1 m1]] st1]
    end; simpl in *; [by injection H as ->|discriminate H].
  - intros vp tp vis_root ann_path Hload.
    unfold MimicCxrDataset.__init__. unfold mbind, M_bind, lift.
    by rewrite Hload.
  - intros vp root_path Hwf Hbad.
    unfold evalMIMICDataset.__init__, construct,
      evalMIMICDataset._validate_dataset.
    unfold mbind, M_bind, get_self, print at 1. simpl.
    match goal with
    | |- context [validate_loop ?w ?r ?f ?l ?v ?m ?st] =>
        pose proof (validate_loop_malformed w r f good rest bad e Hwf Hbad
                      v m st) as H;
        destruct (validate_loop w r f l v m st) as [[e1|[r1 m1]] st1]
    end; simpl in *; [by injection H as ->|discriminate H].
  - intros vp root_path Hwf Hbad.
    unfold evalDetectMimicDataset.__init__, construct,
      evalDetectMimicDataset._validate_dataset.
    unfold mbind, M_bind, get_self, print at 1. simpl.
    match goal with
    | |- context [validate_loop ?w ?r ?f ?l ?v ?m ?st] =>
        pose proof (validate_loop_malformed w r f good rest bad e Hwf Hbad
                      v m st) as H;
        destruct (validate_loop w r f l v m st) as [[e1|[r1 m1]] st1]
    end; simpl in *; [by injection H as ->|discriminate H].
Qed.

Lemma construction_rejects_malformed_records_witness :
  fst (MimicCxrDataset.__init__
         (Demo.serving [Demo.annotation "a.jpg" "clear lungs" 1;
                        Demo.pathless])
         Demo.vis_processor Demo.text_processor "/data" "/data/ann.json"
         (Demo.start tt))
  = inl (KeyError "image_path")
  /\ MimicCxrDataset.__init__ Demo.world Demo.vis_processor
       Demo.text_processor "/data" "/nowhere.json" (Demo.start tt)
     = (inl (Raised "FileNotFoundError" "/nowhere.json"), Demo.start tt)
  /\ fst (evalMIMICDataset.__init__ Demo.world
            [Demo.annotation "a.jpg" "clear lungs" 1; Demo.pathless;
             Demo.annotation "c.jpg" "cardiomegaly" 3]
            Demo.vis_processor "/data" (Demo.start tt))
     = inl (KeyError "image_path")
  /\ fst (evalDetectMimicDataset.__init__ Demo.world
            [Demo.detection "a.jpg" "cat, dog"; Demo.numbered]
            Demo.vis_processor "/data" (Demo.start tt))
     = inl TypeError.
Proof.
  split; [|split; [|split]].
  - apply (proj1 (construction_rejects_malformed_records (Tensor := Image)
                    (Demo.serving [Demo.annotation "a.jpg" "clear lungs" 1;
                                   Demo.pathless])
                    [Demo.annotation "a.jpg" "clear lungs" 1] []
                    Demo.pathless (KeyError "image_path") (Demo.start tt)));
      reflexivity.
  - apply (proj1 (proj2
             (construction_rejects_malformed_records (Tensor := Image)
                Demo.world [] [] Demo.pathless
                (Raised "FileNotFoundError" "/nowhere.json")
                (Demo.start tt)))).
    reflexivity.
  - apply (proj1 (proj2 (proj2
             (construction_rejects_malformed_records (Tensor := Image)
                Demo.world [Demo.annotation "a.jpg" "clear lungs" 1]
                [Demo.annotation "c.jpg" "cardiomegaly" 3] Demo.pathless
                (KeyError "image_path") (Demo.start tt)))));
      reflexivity.
  - apply (proj2 (proj2 (proj2
             (construction_rejects_malformed_records (Tensor := Image)
                Demo.world [Demo.detection "a.jpg" "cat, dog"] []
                Demo.numbered TypeError (Demo.start tt)))));
      reflexivity.
Defined.

Section ConstructionSucceeds.
Context {Tensor : Type}.
Variable w : World.

(** A constructor that returns a dataset was given well-formed records. *)
Lemma MimicCxr_init_well_formed (vp : Image -> exn + Tensor)
    (tp : string -> exn + string) (vis_root ann_path : string)
    (items : list record) (st st' : state unit)
    (ds : MimicCxrDataset.t Tensor) :
  json_load w ann_path = inr items ->
  MimicCxrDataset.__init__ w vp tp vis_root ann_path st = (inr ds, st') ->
  well_formed "image_path" items = true.
Proof.
  intros Hload.
  unfold MimicCxrDataset.__init__, construct,
    MimicCxrDataset._validate_dataset.
  unfold mbind, M_bind, lift, get_self, print at 1. rewrite Hload. simpl.
  match goal with
  | |- context [validate_loop ?w ?r ?f ?l ?v ?m ?st] =>
      destruct (validate_loop w r f l v m st) as [[e1|[r1 m1]] st1] eqn:Hloop
  end; [discriminate|].
  intros _. by apply validate_loop_success in Hloop.
Qed.

Lemma evalMIMIC_init_well_formed (items : list record)
    (vp : Image -> exn + Tensor) (root_path : string) (st st' : state unit)
    (ds : evalMIMICDataset.t Tensor) :
  evalMIMICDataset.__init__ w items vp root_path st = (inr ds, st') ->
  well_formed "image_path" items = true.
Proof.
  unfold evalMIMICDataset.__init__, construct,
    evalMIMICDataset._validate_dataset.
  unfold mbind, M_bind, get_self, print at 1. simpl.
  match goal with
  | |- context [validate_loop ?w ?r ?f ?l ?v ?m ?st] =>
      destruct (validate_loop w r f l v m st) as [[e1|[r1 m1]] st1] eqn:Hloop
  end; [discriminate|].
  intros _. by apply validate_loop_success in Hloop.
Qed.

Lemma evalDetect_init_well_formed (items : list record)
    (vp : Image -> exn + Tensor) (root_path : string) (st st' : state unit)
    (ds : evalDetectMimicDataset.t Tensor) :
  evalDetectMimicDataset.__init__ w items vp root_path st = (inr ds, st') ->
  well_formed "key" items = true.
Proof.
  unfold evalDetectMimicDataset.__init__, construct,
    evalDetectMimicDataset._validate_dataset.
  unfold mbind, M_bind, get_self, print at 1. simpl.
  match goal with
  | |- context [validate_loop ?w ?r ?f ?l ?v ?m ?st] =>
      destruct (validate_loop w r f l v m st) as [[e1|[r1 m1]] st1] eqn:Hloop
  end; [discriminate|].
  intros _. by apply validate_loop_success in Hloop.
Qed.

(** Validating validated records prints a count of zero missing files. *)
Lemma validation_output_filter (title name root field : string)
    (items : list record) :
  In (Text "  Missing files: 0")
    (validation_output w title name root field
       (List.filter (image_exists w root field) items)).
Proof.
  unfold validation_output. rewrite missing_paths_filter. simpl. auto.
Qed.

End ConstructionSucceeds.

(** X3.  Validation is idempotent: the records a constructor has kept, given
    to the constructor again in the same world, are all kept; the same
    dataset is built and the count of missing files it prints is zero. *)
Theorem validating_twice {Tensor : Type} (w : World) :
  (forall (vp : Image -> exn + Tensor) (tp : string -> exn + string)
          (vis_root ann_path ann_path' : string) (items : list record)
          (st st1 st2 : state unit) (ds : MimicCxrDataset.t Tensor),
      json_load w ann_path = inr items ->
      MimicCxrDataset.__init__ w vp tp vis_root ann_path st = (inr ds, st1) ->
      json_load w ann_path' = inr (MimicCxrDataset.ann ds) ->
      exists st3,
        MimicCxrDataset.__init__ w vp tp vis_root ann_path' st2
        = (inr ds, st3)
        /\ printed (stdout st2) (stdout st3) (Text "  Missing files: 0"))
  /\ (forall (vp : Image -> exn + Tensor) (root_path : string)
          (items : list record) (st st1 st2 : state unit)
          (ds : evalMIMICDataset.t Tensor),
      evalMIMICDataset.__init__ w items vp root_path st = (inr ds, st1) ->
      exists st3,
        evalMIMICDataset.__init__ w (evalMIMICDataset.loaded_data ds) vp
          root_path st2
        = (inr ds, st3)
        /\ printed (stdout st2) (stdout st3) (Text "  Missing files: 0"))
  /\ (forall (vp : Image -> exn + Tensor) (root_path : string)
          (items : list record) (st st1 st2 : state unit)
          (ds : evalDetectMimicDataset.t Tensor),
      evalDetectMimicDataset.__init__ w items vp root_path st = (inr ds, st1) ->
      exists st3,
        evalDetectMimicDataset.__init__ w
          (evalDetectMimicDataset.loaded_data ds) vp root_path st2
        = (inr ds, st3)
        /\ printed (stdout st2) (stdout st3) (Text "  Missing files: 0")).
Proof.
  split; [|split].
  - intros vp tp vis_root ann_path ann_path' items st st1 st2 ds
      Hload Hinit Hload'.
    pose proof (MimicCxr_init_well_formed w vp tp vis_root ann_path items
                  st st1 ds Hload Hinit) as Hwf.
    rewrite (MimicCxr_init_run w vp tp vis_root ann_path items st Hload Hwf)
      in Hinit.
    injection Hinit as <- _. simpl in Hload'.
    rewrite (MimicCxr_init_run w vp tp vis_root ann_path' _ st2 Hload'
               (filter_well_formed w vis_root "image_path" items)).
    rewrite filter_twice. eexists. split; [reflexivity|]. simpl.
    eexists. split; [reflexivity|]. apply validation_output_filter.
  - intros vp root_path items st st1 st2 ds Hinit.
    pose proof (evalMIMIC_init_well_formed w items vp root_path st st1 ds
                  Hinit) as Hwf.
    rewrite (evalMIMIC_init_run w items vp root_path st Hwf) in Hinit.
    injection Hinit as <- _. simpl.
    rewrite (evalMIMIC_init_run w _ vp root_path st2
               (filter_well_formed w root_path "image_path" items)).
    rewrite filter_twice. eexists. split; [reflexivity|]. simpl.
    eexists. split; [reflexivity|]. apply validation_output_filter.
  - intros vp root_path items st st1 st2 ds Hinit.
    pose proof (evalDetect_init_well_formed w items vp root_path st st1 ds
                  Hinit) as Hwf.
    rewrite (evalDetect_init_run w items vp root_path st Hwf) in Hinit.
    injection Hinit as <- _. simpl.
    rewrite (evalDetect_init_run w _ vp root_path st2
               (filter_well_formed w root_path "key" items)).
    rewrite filter_twice. eexists. split; [reflexivity|]. simpl.
    eexists. split; [reflexivity|]. apply validation_output_filter.
Qed.

Lemma validating_twice_witness :
  exists st3,
    evalMIMICDataset.__init__ Demo.world
      (evalMIMICDataset.loaded_data Demo.captioned) Demo.vis_processor
      "/data" (Demo.start tt)
    = (inr Demo.captioned, st3)
    /\ printed [] (stdout st3) (Text "  Missing files: 0").
Proof.
  destruct (validating_twice (Tensor := Image) Demo.world)
    as (_ & Hcaption & _).
  eapply (Hcaption Demo.vis_processor "/data" Demo.annotations
            (Demo.start tt) _ (Demo.start tt) Demo.captioned).
  vm_compute. reflexivity.
Defined.

(** ** The training variant: what an access returns, raises and keeps *)

Section TrainingRuns.
Context {Tensor : Type}.
Variable w : World.

Local Abbreviation dataset := (MimicCxrDataset.t Tensor).

(** [load_image] on a file that exists, opens, decodes and is processed. *)
Lemma load_image_ready (p : string) (x : Tensor) (st : state dataset) :
  os_path_exists w (os_path_join w (MimicCxrDataset.vis_root (self st)) p)
  = true ->
  prepared w (MimicCxrDataset.vis_processor (self st)) resized_canvas
    (os_path_join w (MimicCxrDataset.vis_root (self st)) p) x ->
  MimicCxrDataset.load_image w (VStr p) st = (inr (Some x), st).
Proof.
  intros Hex (f & Hopen & Hdecode & Hvis).
  unfold MimicCxrDataset.load_image, path_join, PIL_open, convert.
  unfold_monad. simpl. rewrite Hex, Hopen. simpl. rewrite Hdecode. simpl.
  unfold resized_canvas in Hvis. by rewrite Hvis.
Qed.

(** [load_image] on a file that is not there. *)
Lemma load_image_missing (p : string) (st : state dataset) :
  os_path_exists w (os_path_join w (MimicCxrDataset.vis_root (self st)) p)
  = false ->
  MimicCxrDataset.load_image w (VStr p) st
  = (inr None,
     State (self st) (random st)
       (stdout st
        ++ [Text ("Warning: Image not found: "
                  ++ os_path_join w (MimicCxrDataset.vis_root (self st)) p)])).
Proof.
  intros Hex.
  unfold MimicCxrDataset.load_image, path_join.
  unfold_monad. simpl. by rewrite Hex.
Qed.

(** A turn of the loop on a record that is complete and whose image is
    ready returns the sample of that record and draws once. *)
Lemma attempt_succeeds (index : Z) (st : state dataset) (info : record)
    (p processed : string) (x : Tensor) (caption image_id : value) :
  MimicCxrDataset.instruction_pool (self st) = instruction_templates ->
  list_index (MimicCxrDataset.ann (self st)) index = Some info ->
  info !! "image_path" = Some (VStr p) ->
  os_path_exists w (os_path_join w (MimicCxrDataset.vis_root (self st)) p)
  = true ->
  prepared w (MimicCxrDataset.vis_processor (self st)) resized_canvas
    (os_path_join w (MimicCxrDataset.vis_root (self st)) p) x ->
  MimicCxrDataset.text_processor (self st) (chosen_template (random st))
  = inr processed ->
  info !! "caption" = Some caption ->
  info !! "image_id" = Some image_id ->
  MimicCxrDataset.attempt w index st
  = (inr (inl {| MimicCxrDataset.image := x;
                 MimicCxrDataset.instruction_input :=
                   ("<Img><ImageHere></Img> " ++ processed)%string;
                 MimicCxrDataset.answer := caption;
                 MimicCxrDataset.image_id := image_id |}),
     State (self st) (drawn (random st)) (stdout st)).
Proof.
  intros Hpool Hinfo Hpath Hex Hready Htext Hcaption Hid.
  unfold MimicCxrDataset.attempt.
  unfold try_except, mbind at 1, M_bind at 1, get_self.
  unfold mbind at 1, M_bind at 1, list_getitem. rewrite Hinfo.
  unfold mret at 1, M_ret at 1.
  unfold mbind at 1, M_bind at 1, dict_getitem at 1. rewrite Hpath.
  unfold mret at 1, M_ret at 1.
  unfold mbind at 1, M_bind at 1.
  rewrite (load_image_ready p x st Hex Hready).
  rewrite Hpool.
  unfold mbind at 1, M_bind at 1, random_choice, randbelow. simpl.
  unfold chosen_template in Htext. simpl in Htext.
  unfold mbind at 1, M_bind at 1, lift at 1. rewrite Htext.
  unfold mbind at 1, M_bind at 1, dict_getitem at 1. rewrite Hcaption.
  unfold mret at 1, M_ret at 1.
  unfold mbind at 1, M_bind at 1, dict_getitem at 1. rewrite Hid.
  reflexivity.
Qed.

(** A turn of the loop on a record whose file has gone prints the warning
    and moves on. *)
Lemma attempt_missing (index : Z) (st : state dataset) (info : record)
    (p : string) :
  list_index (MimicCxrDataset.ann (self st)) index = Some info ->
  info !! "image_path" = Some (VStr p) ->
  os_path_exists w (os_path_join w (MimicCxrDataset.vis_root (self st)) p)
  = false ->
  MimicCxrDataset.attempt w index st
  = (inr (inr ((index + 1)
               mod Z.of_nat (length (MimicCxrDataset.ann (self st))))%Z),
     State (self st) (random st)
       (stdout st
        ++ [Text ("Warning: Image not found: "
                  ++ os_path_join w (MimicCxrDataset.vis_root (self st)) p)])).
Proof.
  intros Hinfo Hpath Hex.
  unfold MimicCxrDataset.attempt.
  unfold try_except, mbind at 1, M_bind at 1, get_self.
  unfold mbind at 1, M_bind at 1, list_getitem. rewrite Hinfo.
  unfold mret at 1, M_ret at 1.
  unfold mbind at 1, M_bind at 1, dict_getitem at 1. rewrite Hpath.
  unfold mret at 1, M_ret at 1.
  unfold mbind at 1, M_bind at 1.
  rewrite (load_image_missing p st Hex).
  unfold mbind at 1, M_bind at 1.
  rewrite next_index_nonempty.
  - reflexivity.
  - simpl. intros Hnil. apply list_index_In in Hinfo.
    rewrite Hnil in Hinfo. destruct Hinfo.
Qed.

(** A turn of the loop at an index out of range prints the [IndexError]
    and moves on. *)
Lemma attempt_out_of_range (index : Z) (st : state dataset) :
  list_index (MimicCxrDataset.ann (self st)) index = None ->
  MimicCxrDataset.ann (self st) <> [] ->
  MimicCxrDataset.attempt w index st
  = (inr (inr ((index + 1)
               mod Z.of_nat (length (MimicCxrDataset.ann (self st))))%Z),
     State (self st) (random st)
       (stdout st
        ++ [TextExn ("Error processing index " ++ pretty index ++ ": ")
              IndexError])).
Proof.
  intros Hinfo Hne.
  unfold MimicCxrDataset.attempt.
  unfold try_except, mbind at 1, M_bind at 1, get_self.
  unfold mbind at 1, M_bind at 1, list_getitem. rewrite Hinfo.
  unfold raise at 1.
  unfold mbind at 1, M_bind at 1, print_exn at 1.
  unfold mbind at 1, M_bind at 1.
  by rewrite next_index_nonempty.
Qed.

(** Two turns: the first one fails, the second one returns. *)
Lemma getitem_second_attempt (index index1 : Z) (st st1 st' : state dataset)
    (smp : MimicCxrDataset.sample Tensor) :
  MimicCxrDataset.attempt w index st = (inr (inr index1), st1) ->
  MimicCxrDataset.attempt w index1 st1 = (inr (inl smp), st') ->
  MimicCxrDataset.__getitem__ w index st = (inr smp, st').
Proof.
  intros H1 H2. unfold MimicCxrDataset.__getitem__.
  rewrite while_attempts_unfold.
  destruct (lt_dec 0 MimicCxrDataset.max_attempts) as [_|Hge];
    [|unfold MimicCxrDataset.max_attempts in Hge; lia].
  unfold mbind at 1, M_bind at 1. rewrite H1.
  rewrite while_attempts_unfold.
  destruct (lt_dec (0 + 1) MimicCxrDataset.max_attempts) as [_|Hge];
    [|unfold MimicCxrDataset.max_attempts in Hge; lia].
  unfold mbind at 1, M_bind at 1. by rewrite H2.
Qed.

Lemma getitem_first_attempt (index : Z) (st st' : state dataset)
    (smp : MimicCxrDataset.sample Tensor) :
  MimicCxrDataset.attempt w index st = (inr (inl smp), st') ->
  MimicCxrDataset.__getitem__ w index st = (inr smp, st').
Proof.
  intros H1. unfold MimicCxrDataset.__getitem__.
  rewrite while_attempts_unfold.
  destruct (lt_dec 0 MimicCxrDataset.max_attempts) as [_|Hge];
    [|unfold MimicCxrDataset.max_attempts in Hge; lia].
  unfold mbind at 1, M_bind at 1. by rewrite H1.
Qed.

(** The [except] branch raises only by dividing by the size of an empty
    dataset. *)
Lemma except_branch_raises (index : Z) (e e' : exn) (st st' : state dataset) :
  (print_exn ("Error processing index " ++ pretty index ++ ": ") e;;
   index ← MimicCxrDataset.next_index index;
   mret (inr index : MimicCxrDataset.sample Tensor + Z)) st
  = (inl e', st') ->
  e' = ZeroDivisionError /\ MimicCxrDataset.ann (self st) = [].
Proof.
  unfold MimicCxrDataset.next_index, MimicCxrDataset.__len__, py_mod.
  unfold_monad. simpl.
  destruct (Z.eqb_spec (Z.of_nat (length (MimicCxrDataset.ann (self st)))) 0)
    as [Hz|_]; [|discriminate].
  intros H. injection H as <- _. split; [reflexivity|].
  destruct (MimicCxrDataset.ann (self st)); [reflexivity|simpl in Hz; lia].
Qed.

Lemma attempt_raises (index : Z) (e : exn) (st st' : state dataset) :
  MimicCxrDataset.attempt w index st = (inl e, st') ->
  e = ZeroDivisionError /\ MimicCxrDataset.ann (self st) = [].
Proof.
  unfold MimicCxrDataset.attempt.
  unfold try_except, mbind at 1, M_bind at 1, get_self.
  unfold mbind at 1, M_bind at 1.
  destruct (list_getitem_cases (MimicCxrDataset.ann (self st)) index st)
    as [(info & Hin & ->)| ->]; [|apply except_branch_raises].
  unfold mbind at 1, M_bind at 1, dict_getitem at 1.
  destruct (info !! "image_path") as [v|]; simpl;
    [|apply except_branch_raises].
  unfold mbind at 1, M_bind at 1.
  destruct (load_image_cases w v st) as [[x ->]|[[l ->]| ->]];
    [| |apply except_branch_raises].
  2:{ unfold mbind at 1, M_bind at 1.
      destruct (MimicCxrDataset.next_index index _) as [[e1|i] st1] eqn:Hn.
      - apply next_index_state in Hn as ->.
        apply (except_branch_raises index e1 e
                 (State (self st) (random st) (stdout st ++ [l]))).
      - discriminate. }
  unfold mbind at 1, M_bind at 1.
  pose proof (keeps_self_random_choice
                (MimicCxrDataset.instruction_pool (self st)) st) as Hs.
  destruct (random_choice _ st) as [[e1|template] st1];
    simpl in Hs; rewrite <- Hs; [apply except_branch_raises|].
  unfold mbind at 1, M_bind at 1, lift at 1.
  destruct (MimicCxrDataset.text_processor _ template) as [e1|processed];
    [apply except_branch_raises|].
  unfold mbind at 1, M_bind at 1, dict_getitem at 1.
  destruct (info !! "caption") as [caption|]; simpl;
    [|apply except_branch_raises].
  unfold mbind at 1, M_bind at 1, dict_getitem at 1.
  destruct (info !! "image_id") as [image_id|]; simpl;
    [|apply except_branch_raises].
  discriminate.
Qed.

Lemma while_attempts_raises (k : nat) :
  forall (attempts : nat) (index : Z) (e : exn) (st st' : state dataset),
    (attempts + k = MimicCxrDataset.max_attempts)%nat ->
    MimicCxrDataset.while_attempts w index attempts st = (inl e, st') ->
    e = RuntimeError "Failed to load valid sample after 10 attempts"
    \/ (e = ZeroDivisionError /\ MimicCxrDataset.ann (self st) = []).
Proof.
  induction k as [|k IH]; intros attempts index e st st' Hk;
    rewrite while_attempts_unfold;
    destruct (lt_dec attempts MimicCxrDataset.max_attempts); try lia.
  - intros H. injection H as <- _. by left.
  - unfold mbind, M_bind.
    pose proof (keeps_self_attempt w index st) as Hself.
    destruct (MimicCxrDataset.attempt w index st) as [[e1|[s|index1]] st1]
      eqn:Hattempt; simpl in Hself.
    + intros H. injection H as <- _. right.
      by apply attempt_raises in Hattempt.
    + discriminate.
    + intros H. apply IH in H; [|lia]. by rewrite Hself in H.
Qed.

Lemma keeps_self_while_attempts (k : nat) :
  forall (attempts : nat) (index : Z),
    (attempts + k = MimicCxrDataset.max_attempts)%nat ->
    keeps_self (MimicCxrDataset.while_attempts (Tensor := Tensor) w index
                  attempts).
Proof.
  induction k as [|k IH]; intros attempts index Hk st;
    rewrite while_attempts_unfold;
    destruct (lt_dec attempts MimicCxrDataset.max_attempts); try lia.
  - reflexivity.
  - unfold mbind, M_bind.
    pose proof (keeps_self_attempt w index st) as Hself.
    destruct (MimicCxrDataset.attempt w index st) as [[e1|[s|index1]] st1];
      simpl in *; try assumption.
    rewrite IH; [assumption|lia].
Qed.

End TrainingRuns.

(** X4.  [load_image] never raises on a path that is a string, whatever the
    file system, the image library or the processor do: it returns the
    image and prints nothing, or returns [None] after exactly one line, the
    warning for a file that is not there, or the error caught while the file
    was opened, decoded or processed.  On an [image_id] that is no string
    the handler reads [image_path] before it is bound: [load_image] raises
    [UnboundLocalError] and prints nothing.  It never changes the dataset
    or the generator. *)
Theorem load_image_outcomes {Tensor : Type} (w : World) (v : value)
    (st : state (MimicCxrDataset.t Tensor)) :
  (forall p, v = VStr p ->
     exists r out,
       MimicCxrDataset.load_image w v st
       = (inr r, State (self st) (random st) (stdout st ++ out))
       /\ match r with
          | Some _ => out = []
          | None => length out = 1%nat
          end)
  /\ (forall p, v = VStr p ->
     let path := os_path_join w (MimicCxrDataset.vis_root (self st)) p in
     os_path_exists w path = false ->
     MimicCxrDataset.load_image w v st
     = (inr None,
        State (self st) (random st)
          (stdout st ++ [Text ("Warning: Image not found: " ++ path)])))
  /\ (forall p e, v = VStr p ->
     let path := os_path_join w (MimicCxrDataset.vis_root (self st)) p in
     os_path_exists w path = true ->
     image_error w (MimicCxrDataset.vis_processor (self st)) resized_canvas
       path e ->
     MimicCxrDataset.load_image w v st
     = (inr None,
        State (self st) (random st)
          (stdout st ++ [TextExn ("Error loading " ++ path ++ ": ") e])))
  /\ ((forall p, v <> VStr p) ->
     MimicCxrDataset.load_image w v st
     = (inl (UnboundLocalError "image_path"), st)).
Proof.
  split; [|split; [|split]].
  - intros p ->.
    destruct (load_image_cases w (VStr p) st) as [[x ->]|[[l ->]|H]].
    + exists (Some x), []. rewrite app_nil_r, state_eta. auto.
    + exists None, [l]. auto.
    + exfalso. revert H.
      unfold MimicCxrDataset.load_image, path_join, PIL_open, convert.
      unfold_monad. simpl.
      destruct (os_path_exists w _); simpl; [|discriminate].
      destruct (Image_open w _) as [e|f]; simpl; [discriminate|].
      destruct (file_data_error f) as [e|]; simpl; [discriminate|].
      destruct (MimicCxrDataset.vis_processor _ _); discriminate.
  - intros p -> path Hex. by apply load_image_missing.
  - intros p e -> path Hex Herr.
    unfold MimicCxrDataset.load_image, path_join, PIL_open, convert.
    unfold_monad. simpl. fold path. rewrite Hex. simpl.
    destruct Herr as [Hopen|f Hopen Hdecode|f Hopen Hdecode Hvis];
      rewrite Hopen; simpl; [reflexivity|rewrite Hdecode..]; simpl;
      [reflexivity|].
    unfold resized_canvas in Hvis. by rewrite Hvis.
  - intros Hv. destruct v as [| | |p]; try reflexivity.
    by destruct (Hv p).
Qed.

Lemma load_image_outcomes_witness :
  MimicCxrDataset.load_image Demo.emptied (VStr "a.jpg")
    (Demo.start Demo.training)
  = (inr None,
     State Demo.training Demo.generator
       [Text "Warning: Image not found: /data/a.jpg"])
  /\ MimicCxrDataset.load_image Demo.world (VStr "d.jpg")
       (Demo.start Demo.training)
     = (inr None,
        State Demo.training Demo.generator
          [TextExn "Error loading /data/d.jpg: "
             (Raised "OSError" "image file is truncated")])
  /\ MimicCxrDataset.load_image Demo.world (VInt 5)
       (Demo.start Demo.training)
     = (inl (UnboundLocalError "image_path"), Demo.start Demo.training).
Proof.
  split; [|split].
  - apply (proj1 (proj2 (load_image_outcomes Demo.emptied (VStr "a.jpg")
                           (Demo.start Demo.training))) "a.jpg");
      reflexivity.
  - apply (proj1 (proj2 (proj2
             (load_image_outcomes Demo.world (VStr "d.jpg")
                (Demo.start Demo.training)))) "d.jpg");
      [reflexivity..|].
    apply (error_decoding _ _ _ _ _ Demo.damaged_file); reflexivity.
  - apply (proj2 (proj2 (proj2
             (load_image_outcomes Demo.world (VInt 5)
                (Demo.start Demo.training))))).
    discriminate.
Defined.

(** X5.  Only two errors leave [__getitem__] of the training variant: the
    [RuntimeError] of exhausted retries, and [ZeroDivisionError], which
    means that the dataset is empty.  No [IndexError], [KeyError] or error
    of the image library or the processors reaches the caller: they are all
    caught, printed and answered by another attempt. *)
Theorem getitem_raises_only {Tensor : Type} (w : World) (index : Z) (e : exn)
    (st st' : state (MimicCxrDataset.t Tensor)) :
  MimicCxrDataset.__getitem__ w index st = (inl e, st') ->
  e = RuntimeError "Failed to load valid sample after 10 attempts"
  \/ (e = ZeroDivisionError /\ MimicCxrDataset.ann (self st) = []).
Proof. apply (while_attempts_raises w 10 0). reflexivity. Qed.

Lemma getitem_raises_only_witness :
  exists e st',
    MimicCxrDataset.__getitem__ Demo.emptied 7 (Demo.start Demo.training)
    = (inl e, st')
    /\ (e = RuntimeError "Failed to load valid sample after 10 attempts"
        \/ (e = ZeroDivisionError
            /\ MimicCxrDataset.ann Demo.training = [])).
Proof.
  do 2 eexists. split; [vm_compute; reflexivity|].
  eapply (getitem_raises_only Demo.emptied 7 _ (Demo.start Demo.training)).
  vm_compute. reflexivity.
Defined.

(** X6.  No access changes the training dataset: after [__getitem__],
    whether it returned, retried or raised, the object holds the same
    records, pool and processors, and [__len__] answers as before. *)
Theorem getitem_keeps_dataset {Tensor : Type} (w : World) (index : Z)
    (st : state (MimicCxrDataset.t Tensor)) :
  self (snd (MimicCxrDataset.__getitem__ w index st)) = self st
  /\ fst (MimicCxrDataset.__len__
            (snd (MimicCxrDataset.__getitem__ w index st)))
     = fst (MimicCxrDataset.__len__ st).
Proof.
  assert (H : self (snd (MimicCxrDataset.__getitem__ w index st)) = self st).
  { apply (keeps_self_while_attempts w 10 0). reflexivity. }
  split; [exact H|].
  unfold MimicCxrDataset.__len__. unfold_monad. simpl. by rewrite H.
Qed.

(** X7.  At a valid index whose record is complete and whose image is
    ready, [__getitem__] of the training variant returns at the first
    attempt the sample of that very record: its image, the tagged and
    processed template that [random.choice] drew, its caption and its
    identifier.  Nothing is printed and the generator has drawn once. *)
Theorem getitem_returns_requested_record {Tensor : Type} (w : World)
    (index : Z) (st : state (MimicCxrDataset.t Tensor)) (info : record)
    (p processed : string) (x : Tensor) (caption image_id : value) :
  MimicCxrDataset.instruction_pool (self st) = instruction_templates ->
  list_index (MimicCxrDataset.ann (self st)) index = Some info ->
  info !! "image_path" = Some (VStr p) ->
  os_path_exists w (os_path_join w (MimicCxrDataset.vis_root (self st)) p)
  = true ->
  prepared w (MimicCxrDataset.vis_processor (self st)) resized_canvas
    (os_path_join w (MimicCxrDataset.vis_root (self st)) p) x ->
  MimicCxrDataset.text_processor (self st) (chosen_template (random st))
  = inr processed ->
  info !! "caption" = Some caption ->
  info !! "image_id" = Some image_id ->
  MimicCxrDataset.__getitem__ w index st
  = (inr {| MimicCxrDataset.image := x;
            MimicCxrDataset.instruction_input :=
              ("<Img><ImageHere></Img> " ++ processed)%string;
            MimicCxrDataset.answer := caption;
            MimicCxrDataset.image_id := image_id |},
     State (self st) (drawn (random st)) (stdout st)).
Proof.
  intros Hpool Hinfo Hpath Hex Hready Htext Hcaption Hid.
  apply getitem_first_attempt.
  by apply (attempt_succeeds w index st info p).
Qed.

Lemma getitem_returns_requested_record_witness :
  MimicCxrDataset.__getitem__ Demo.world (-1) (Demo.start Demo.training)
  = (inr {| MimicCxrDataset.image :=
              resized_canvas (Convert (Opened "/data/c.jpg" Demo.sound_file) L);
            MimicCxrDataset.instruction_input :=
              "<Img><ImageHere></Img> Please provide a detailed description of the picture.";
            MimicCxrDataset.answer := VStr "cardiomegaly";
            MimicCxrDataset.image_id := VInt 3 |},
     State Demo.training (drawn Demo.generator) []).
Proof.
  apply (getitem_returns_requested_record Demo.world (-1)
           (Demo.start Demo.training)
           (Demo.annotation "c.jpg" "cardiomegaly" 3) "c.jpg");
    try reflexivity.
  exists Demo.sound_file. repeat split; reflexivity.
Defined.

(** X8.  When the image of the record asked for has gone since validation
    while the next record is complete and ready, [__getitem__] prints the
    warning for the missing file and returns the sample of the next record,
    at the next index modulo the size of the dataset: the caption and the
    identifier returned are not those of the record asked for. *)
Theorem getitem_skips_missing_image {Tensor : Type} (w : World)
    (index : Z) (st : state (MimicCxrDataset.t Tensor))
    (info0 info1 : record) (p0 p1 processed : string) (x : Tensor)
    (caption image_id : value) :
  let s := self st in
  let index1 :=
    ((index + 1) mod Z.of_nat (length (MimicCxrDataset.ann s)))%Z in
  MimicCxrDataset.instruction_pool s = instruction_templates ->
  list_index (MimicCxrDataset.ann s) index = Some info0 ->
  info0 !! "image_path" = Some (VStr p0) ->
  os_path_exists w (os_path_join w (MimicCxrDataset.vis_root s) p0) = false ->
  list_index (MimicCxrDataset.ann s) index1 = Some info1 ->
  info1 !! "image_path" = Some (VStr p1) ->
  os_path_exists w (os_path_join w (MimicCxrDataset.vis_root s) p1) = true ->
  prepared w (MimicCxrDataset.vis_processor s) resized_canvas
    (os_path_join w (MimicCxrDataset.vis_root s) p1) x ->
  MimicCxrDataset.text_processor s (chosen_template (random st))
  = inr processed ->
  info1 !! "caption" = Some caption ->
  info1 !! "image_id" = Some image_id ->
  MimicCxrDataset.__getitem__ w index st
  = (inr {| MimicCxrDataset.image := x;
            MimicCxrDataset.instruction_input :=
              ("<Img><ImageHere></Img> " ++ processed)%string;
            MimicCxrDataset.answer := caption;
            MimicCxrDataset.image_id := image_id |},
     State s (drawn (random st))
       (stdout st
        ++ [Text ("Warning: Image not found: "
                  ++ os_path_join w (MimicCxrDataset.vis_root s) p0)])).
Proof.
  intros s index1 Hpool Hinfo0 Hpath0 Hex0 Hinfo1 Hpath1 Hex1 Hready Htext
    Hcaption Hid.
  eapply getitem_second_attempt.
  - by apply (attempt_missing w index st info0 p0).
  - exact (attempt_succeeds w index1
             (State s (random st)
                (stdout st
                 ++ [Text ("Warning: Image not found: "
                           ++ os_path_join w (MimicCxrDataset.vis_root s) p0)]))
             info1 p1 processed x caption image_id
             Hpool Hinfo1 Hpath1 Hex1 Hready Htext Hcaption Hid).
Qed.

Lemma getitem_skips_missing_image_witness :
  MimicCxrDataset.__getitem__ Demo.later 0 (Demo.start Demo.training)
  = (inr {| MimicCxrDataset.image :=
              resized_canvas (Convert (Opened "/data/c.jpg" Demo.sound_file) L);
            MimicCxrDataset.instruction_input :=
              "<Img><ImageHere></Img> Please provide a detailed description of the picture.";
            MimicCxrDataset.answer := VStr "cardiomegaly";
            MimicCxrDataset.image_id := VInt 3 |},
     State Demo.training (drawn Demo.generator)
       [Text "Warning: Image not found: /data/a.jpg"]).
Proof.
  apply (getitem_skips_missing_image Demo.later 0 (Demo.start Demo.training)
           (Demo.annotation "a.jpg" "clear lungs" 1)
           (Demo.annotation "c.jpg" "cardiomegaly" 3) "a.jpg" "c.jpg");
    try reflexivity.
  exists Demo.sound_file. repeat split; reflexivity.
Defined.

(** X9.  An index out of range does not make [__getitem__] of the training
    variant fail: on a dataset that is not empty the [IndexError] is caught
    and printed, and the access goes on at the index plus one modulo the
    size; where that record is complete and ready, its sample is
    returned. *)
Theorem getitem_index_out_of_range {Tensor : Type} (w : World)
    (index : Z) (st : state (MimicCxrDataset.t Tensor))
    (info1 : record) (p1 processed : string) (x : Tensor)
    (caption image_id : value) :
  let s := self st in
  let index1 :=
    ((index + 1) mod Z.of_nat (length (MimicCxrDataset.ann s)))%Z in
  MimicCxrDataset.instruction_pool s = instruction_templates ->
  list_index (MimicCxrDataset.ann s) index = None ->
  list_index (MimicCxrDataset.ann s) index1 = Some info1 ->
  info1 !! "image_path" = Some (VStr p1) ->
  os_path_exists w (os_path_join w (MimicCxrDataset.vis_root s) p1) = true ->
  prepared w (MimicCxrDataset.vis_processor s) resized_canvas
    (os_path_join w (MimicCxrDataset.vis_root s) p1) x ->
  MimicCxrDataset.text_processor s (chosen_template (random st))
  = inr processed ->
  info1 !! "caption" = Some caption ->
  info1 !! "image_id" = Some image_id ->
  MimicCxrDataset.__getitem__ w index st
  = (inr {| MimicCxrDataset.image := x;
            MimicCxrDataset.instruction_input :=
              ("<Img><ImageHere></Img> " ++ processed)%string;
            MimicCxrDataset.answer := caption;
            MimicCxrDataset.image_id := image_id |},
     State s (drawn (random st))
       (stdout st
        ++ [TextExn ("Error processing index " ++ pretty index ++ ": ")
              IndexError])).
Proof.
  intros s index1 Hpool Hinfo0 Hinfo1 Hpath1 Hex1 Hready Htext Hcaption Hid.
  eapply getitem_second_attempt.
  - apply (attempt_out_of_range w index st Hinfo0).
    intros Hnil. apply list_index_In in Hinfo1. fold s in Hnil.
    rewrite Hnil in Hinfo1. destruct Hinfo1.
  - exact (attempt_succeeds w index1
             (State s (random st)
                (stdout st
                 ++ [TextExn ("Error processing index " ++ pretty index
                              ++ ": ") IndexError]))
             info1 p1 processed x caption image_id
             Hpool Hinfo1 Hpath1 Hex1 Hready Htext Hcaption Hid).
Qed.

Lemma getitem_index_out_of_range_witness :
  MimicCxrDataset.__getitem__ Demo.world 2 (Demo.start Demo.training)
  = (inr {| MimicCxrDataset.image :=
              resized_canvas (Convert (Opened "/data/c.jpg" Demo.sound_file) L);
            MimicCxrDataset.instruction_input :=
              "<Img><ImageHere></Img> Please provide a detailed description of the picture.";
            MimicCxrDataset.answer := VStr "cardiomegaly";
            MimicCxrDataset.image_id := VInt 3 |},
     State Demo.training (drawn Demo.generator)
       [TextExn "Error processing index 2: " IndexError]).
Proof.
  apply (getitem_index_out_of_range Demo.world 2 (Demo.start Demo.training)
           (Demo.annotation "c.jpg" "cardiomegaly" 3) "c.jpg");
    try reflexivity.
  exists Demo.sound_file. repeat split; reflexivity.
Defined.

(** ** Construction followed by access *)

Lemma image_exists_path (w : World) (root field : string) (item : record) :
  image_exists w root field item = true ->
  exists p,
    item !! field = Some (VStr p)
    /\ os_path_exists w (os_path_join w root p) = true.
Proof.
  unfold image_exists, resolved_path.
  destruct (item !! field) as [[| | |p]|]; try discriminate. eauto.
Qed.

Lemma chosen_template_In (g : rng) : In (chosen_template g) instruction_templates.
Proof.
  unfold chosen_template. apply nth_In.
  apply Nat.mod_upper_bound. discriminate.
Qed.

(** X10.  A training dataset built by the constructor answers every valid
    index at the first attempt, as long as the world has not changed: when
    the files that exist are images the processor accepts, the text
    processor accepts the templates and the records carry a caption and an
    identifier, [__getitem__] returns the sample of the record at the index,
    prints nothing and leaves the dataset as it is.  The existence check of
    [load_image] cannot fail on a validated record. *)
Theorem getitem_on_constructed_dataset {Tensor : Type} (w : World)
    (vp : Image -> exn + Tensor) (tp : string -> exn + string)
    (vis_root ann_path : string) (items : list record)
    (st st1 : state unit) (ds : MimicCxrDataset.t Tensor) :
  json_load w ann_path = inr items ->
  MimicCxrDataset.__init__ w vp tp vis_root ann_path st = (inr ds, st1) ->
  (forall item p,
      In item items ->
      item !! "image_path" = Some (VStr p) ->
      os_path_exists w (os_path_join w vis_root p) = true ->
      exists x, prepared w vp resized_canvas (os_path_join w vis_root p) x) ->
  (forall template,
      In template instruction_templates ->
      exists processed, tp template = inr processed) ->
  (forall item,
      In item items ->
      is_Some (item !! "caption") /\ is_Some (item !! "image_id")) ->
  forall (index : Z) (info : record) (g : rng) (out : list line),
    list_index (MimicCxrDataset.ann ds) index = Some info ->
    exists smp,
      MimicCxrDataset.__getitem__ w index (State ds g out)
      = (inr smp, State ds (drawn g) out)
      /\ info !! "caption" = Some (MimicCxrDataset.answer smp)
      /\ info !! "image_id" = Some (MimicCxrDataset.image_id smp).
Proof.
  intros Hload Hinit Hsound Htext Hcomplete index info g out Hinfo.
  pose proof (MimicCxr_init_well_formed w vp tp vis_root ann_path items
                st st1 ds Hload Hinit) as Hwf.
  rewrite (MimicCxr_init_run w vp tp vis_root ann_path items st Hload Hwf)
    in Hinit.
  injection Hinit as <- _. simpl in Hinfo.
  pose proof (list_index_In _ _ _ Hinfo) as Hin.
  apply filter_In in Hin as [Hin Hex].
  apply image_exists_path in Hex as (p & Hpath & Hex).
  destruct (Hsound info p Hin Hpath Hex) as [x Hready].
  destruct (Htext (chosen_template g) (chosen_template_In g))
    as [processed Hprocessed].
  destruct (Hcomplete info Hin) as [[caption Hcaption] [image_id Hid]].
  match goal with |- context [State ?d g out] => set (ds := d) end.
  exists {| MimicCxrDataset.image := x;
            MimicCxrDataset.instruction_input :=
              ("<Img><ImageHere></Img> " ++ processed)%string;
            MimicCxrDataset.answer := caption;
            MimicCxrDataset.image_id := image_id |}.
  split; [|split; assumption].
  apply getitem_first_attempt.
  exact (attempt_succeeds w index (State ds g out) info p processed x
           caption image_id eq_refl Hinfo Hpath Hex Hready Hprocessed
           Hcaption Hid).
Qed.

Lemma getitem_on_constructed_dataset_witness :
  exists smp,
    MimicCxrDataset.__getitem__ Demo.world 1 (Demo.start Demo.training)
    = (inr smp, State Demo.training (drawn Demo.generator) [])
    /\ Demo.annotation "c.jpg" "cardiomegaly" 3 !! "caption"
       = Some (MimicCxrDataset.answer smp)
    /\ Demo.annotation "c.jpg" "cardiomegaly" 3 !! "image_id"
       = Some (MimicCxrDataset.image_id smp).
Proof.
  apply (getitem_on_constructed_dataset Demo.world Demo.vis_processor
           Demo.text_processor "/data" "/data/ann.json" Demo.annotations
           (Demo.start tt)
           (snd (MimicCxrDataset.__init__ Demo.world Demo.vis_processor
                   Demo.text_processor "/data" "/data/ann.json"
                   (Demo.start tt)))
           Demo.training).
  - reflexivity.
  - vm_compute. reflexivity.
  - intros item p Hin Hpath Hex.
    destruct Hin as [<-|[<-|[<-|[]]]]; vm_compute in Hpath;
      injection Hpath as <-; try discriminate Hex;
      eexists; exists Demo.sound_file; repeat split; reflexivity.
  - intros template _. eexists. reflexivity.
  - intros item Hin.
    destruct Hin as [<-|[<-|[<-|[]]]]; split; eexists; reflexivity.
  - reflexivity.
Defined.

(** ** The evaluation variants: what an access returns and touches *)

Lemma list_index_out_of_range {A} (l : list A) (i : Z) :
  (i < - Z.of_nat (length l) \/ Z.of_nat (length l) <= i)%Z ->
  list_index l i = None.
Proof.
  intros Hi. unfold list_index.
  destruct (Z.ltb_spec i 0).
  - destruct (Z.ltb_spec (i + Z.of_nat (length l)) 0); [reflexivity|lia].
  - destruct (Z.ltb_spec i 0); [lia|].
    apply lookup_ge_None. lia.
Qed.

Lemma list_index_negative {A} (l : list A) (i : Z) :
  (- Z.of_nat (length l) <= i < 0)%Z ->
  list_index l i = list_index l (i + Z.of_nat (length l)).
Proof.
  intros Hi. unfold list_index.
  destruct (Z.ltb_spec i 0); [|lia].
  destruct (Z.ltb_spec (i + Z.of_nat (length l)) 0); [lia|].
  destruct (Z.ltb_spec (i + Z.of_nat (length l)) 0); [lia|reflexivity].
Qed.

(** X11.  At a valid index whose record carries an identifier, a path and a
    caption and whose image opens, decodes and is processed, [__getitem__]
    of the caption variant returns the image, the template that
    [random.choice] drew from the pool, and the identifier with [.jpg];
    the generator has drawn once and nothing is printed.  The access does
    not ask whether the file exists: it opens it. *)
Theorem caption_access_returns {Tensor : Type} (w : World) (idx : Z)
    (st : state (evalMIMICDataset.t Tensor)) (info : record)
    (image_id caption : value) (p : string) (x : Tensor) :
  evalMIMICDataset.instruction_pool (self st) = instruction_templates ->
  list_index (evalMIMICDataset.loaded_data (self st)) idx = Some info ->
  info !! "image_id" = Some image_id ->
  info !! "image_path" = Some (VStr p) ->
  prepared w (evalMIMICDataset.vis_processor (self st)) resized_canvas
    (os_path_join w (evalMIMICDataset.root_path (self st)) p) x ->
  info !! "caption" = Some caption ->
  evalMIMICDataset.__getitem__ w idx st
  = (inr (x, chosen_template (random st),
          (py_str image_id ++ ".jpg")%string),
     State (self st) (drawn (random st)) (stdout st)).
Proof.
  intros Hpool Hinfo Hid Hpath (f & Hopen & Hdecode & Hvis) Hcaption.
  rewrite evalMIMIC_getitem_run, Hinfo, Hid, Hpath. simpl.
  unfold resized_canvas in Hvis.
  rewrite Hopen, Hdecode, Hvis, Hcaption, Hpool. reflexivity.
Qed.

Lemma caption_access_returns_witness :
  evalMIMICDataset.__getitem__ Demo.world (-2) (Demo.start Demo.captioned)
  = (inr (resized_canvas (Convert (Opened "/data/a.jpg" Demo.sound_file) L),
          "Please provide a detailed description of the picture",
          "1.jpg"),
     State Demo.captioned (drawn Demo.generator) []).
Proof.
  apply (caption_access_returns Demo.world (-2) (Demo.start Demo.captioned)
           (Demo.annotation "a.jpg" "clear lungs" 1) (VInt 1)
           (VStr "clear lungs") "a.jpg");
    try reflexivity.
  exists Demo.sound_file. repeat split; reflexivity.
Defined.

(** X12.  An access to an evaluation dataset never prints and never changes
    the dataset.  In the detection variant it leaves the whole state as it
    is, returning or raising.  In the caption variant the generator draws
    exactly once when the access returns and not at all when it raises. *)
Theorem evaluation_access_effects {Tensor : Type} (w : World) (idx : Z) :
  (forall st : state (evalDetectMimicDataset.t Tensor),
      snd (evalDetectMimicDataset.__getitem__ w idx st) = st)
  /\ (forall st : state (evalMIMICDataset.t Tensor),
      snd (evalMIMICDataset.__getitem__ w idx st)
      = match fst (evalMIMICDataset.__getitem__ w idx st) with
        | inl _ => st
        | inr _ => State (self st) (drawn (random st)) (stdout st)
        end).
Proof.
  split.
  - intros st. by rewrite evalDetect_getitem_run.
  - intros st. rewrite evalMIMIC_getitem_run.
    destruct (list_index _ idx) as [info|]; [|reflexivity].
    destruct (info !! "image_id") as [v|]; [|reflexivity].
    destruct (info !! "image_path") as [[| | |p]|]; try reflexivity. simpl.
    destruct (Image_open w _) as [e|f]; [reflexivity|].
    destruct (file_data_error f) as [e|]; [reflexivity|].
    destruct (evalMIMICDataset.vis_processor _ _); [reflexivity|].
    destruct (info !! "caption"); [|reflexivity].
    unfold random_choice.
    destruct (evalMIMICDataset.instruction_pool (self st)); reflexivity.
Qed.

(** X13.  The evaluation variants index their records as a Python list
    does: an index below minus the size or from the size on raises
    [IndexError] and leaves the state alone (where the training variant
    would retry), and a negative index within range is the access at the
    index plus the size. *)
Theorem evaluation_index_bounds {Tensor : Type} (w : World) (idx : Z) :
  (forall st : state (evalMIMICDataset.t Tensor),
      let n := Z.of_nat (length (evalMIMICDataset.loaded_data (self st))) in
      ((idx < - n \/ n <= idx)%Z ->
       evalMIMICDataset.__getitem__ w idx st = (inl IndexError, st))
      /\ ((- n <= idx < 0)%Z ->
          evalMIMICDataset.__getitem__ w idx st
          = evalMIMICDataset.__getitem__ w (idx + n) st))
  /\ (forall st : state (evalDetectMimicDataset.t Tensor),
      let n :=
        Z.of_nat (length (evalDetectMimicDataset.loaded_data (self st))) in
      ((idx < - n \/ n <= idx)%Z ->
       evalDetectMimicDataset.__getitem__ w idx st = (inl IndexError, st))
      /\ ((- n <= idx < 0)%Z ->
          evalDetectMimicDataset.__getitem__ w idx st
          = evalDetectMimicDataset.__getitem__ w (idx + n) st)).
Proof.
  split; intros st n; split; intros Hidx.
  - rewrite evalMIMIC_getitem_run.
    by rewrite list_index_out_of_range.
  - rewrite !evalMIMIC_getitem_run.
    by rewrite (list_index_negative _ idx Hidx).
  - rewrite evalDetect_getitem_run.
    by rewrite list_index_out_of_range.
  - rewrite !evalDetect_getitem_run.
    by rewrite (list_index_negative _ idx Hidx).
Qed.

Lemma evaluation_index_bounds_witness :
  evalMIMICDataset.__getitem__ Demo.world 2 (Demo.start Demo.captioned)
  = (inl IndexError, Demo.start Demo.captioned)
  /\ evalDetectMimicDataset.__getitem__ Demo.world (-4)
       (Demo.start Demo.detected)
     = (inl IndexError, Demo.start Demo.detected)
  /\ evalDetectMimicDataset.__getitem__ Demo.world (-1)
       (Demo.start Demo.detected)
     = evalDetectMimicDataset.__getitem__ Demo.world 2
         (Demo.start Demo.detected).
Proof.
  split; [|split].
  - apply (proj1 (proj1 (evaluation_index_bounds (Tensor := Image)
                           Demo.world 2)
                    (Demo.start Demo.captioned))).
    simpl. lia.
  - apply (proj1 (proj2 (evaluation_index_bounds (Tensor := Image)
                           Demo.world (-4))
                    (Demo.start Demo.detected))).
    simpl. lia.
  - apply (proj2 (proj2 (evaluation_index_bounds (Tensor := Image)
                           Demo.world (-1))
                    (Demo.start Demo.detected))).
    simpl. lia.
Defined.
